(** * nba_player_stats: a shallow embedding of [get_player_stats.py]

    The repository holds two copies of the script:
    - [src/get_player_stats.py], the packaged script, embedded at top level;
    - [get_player_stats.py] at the repository root, an earlier copy.  Its
      [create_player_url], [get_tables], [remove_rows] and [get_player_stats]
      are the same text; its [remove_stats] and [pprint_df] differ and are
      embedded in [Module Legacy].

    Python values are modelled as follows.
    - [str] is [string]; a character is one [ascii], which is exact for
      ASCII text (case mapping is done on ASCII letters only).
    - [int] is [Z]; [bool] is [bool].
    - An exception is a constructor of [exn]; a call that may raise returns
      a [result].
    - A pandas DataFrame is its column labels and its labelled rows.
    - The network, standard output and the terminal are an explicit
      [world] threaded through the effectful functions.
    - [get_args] (argparse) is not embedded: [main] starts from the parsed
      arguments. *)

From Stdlib Require Import ZArith Lia Bool List Ascii String DecimalString DecimalPos.
From stdpp Require Import base gmap strings list.

Open Scope Z_scope.

(** ** Python: exceptions, sequences and strings *)

Module Py.

Inductive exn : Type :=
| IndexError
| KeyError (key : string)
| ValueError (msg : string)
| SystemExit.

Inductive result (A : Type) : Type :=
| Ok (a : A)
| Raise (e : exn).
Arguments Ok {A} a.
Arguments Raise {A} e.

Definition bind {A B} (c : result A) (k : A -> result B) : result B :=
  match c with
  | Ok a => k a
  | Raise e => Raise e
  end.

(** [l[i]] on a list: negative positions count from the end, anything out
    of range raises [IndexError]. *)
Definition getitem {A} (l : list A) (i : Z) : result A :=
  let n := Z.of_nat (length l) in
  let j := if i <? 0 then i + n else i in
  if (0 <=? j) && (j <? n) then
    match l !! Z.to_nat j with
    | Some x => Ok x
    | None => Raise IndexError
    end
  else Raise IndexError.

(** [s[i]] on a string gives the one-character string at position [i]. *)
Definition str_getitem (s : string) (i : Z) : result string :=
  let n := Z.of_nat (String.length s) in
  let j := if i <? 0 then i + n else i in
  if (0 <=? j) && (j <? n) then
    match String.get (Z.to_nat j) s with
    | Some c => Ok (String c EmptyString)
    | None => Raise IndexError
    end
  else Raise IndexError.

(** [s[a:b]] for [0 <= a], [0 <= b]: a slice never raises, it is cut at
    the end of [s]. *)
Definition slice (a b : nat) (s : string) : string :=
  String.substring a (b - a) s.

(** [str(n)] for an int. *)
Definition str (n : Z) : string :=
  NilZero.string_of_int (Z.to_int n).

Definition is_sign (c : ascii) : bool :=
  Ascii.eqb c "+" || Ascii.eqb c "-".

Fixpoint zeros (k : nat) : string :=
  match k with
  | O => EmptyString
  | S k' => String "0" (zeros k')
  end.

(** [str.zfill(s, width)]: pad with ["0"] on the left up to [width],
    after a leading sign if there is one; [s] itself when it is already
    that long. *)
Definition zfill (s : string) (width : nat) : string :=
  let fill := zeros (width - String.length s) in
  match s with
  | String c rest =>
      if is_sign c then String c (fill +:+ rest) else fill +:+ s
  | EmptyString => fill
  end.

(** [sub in s] on strings, which is also what the regular expression
    search of [Series.str.contains] does for a pattern without
    metacharacters. *)
Fixpoint contains (sub s : string) : bool :=
  String.prefix sub s ||
  match s with
  | EmptyString => false
  | String _ s' => contains sub s'
  end.

Definition is_upper (c : ascii) : bool :=
  let n := N_of_ascii c in ((65 <=? n) && (n <=? 90))%N.

Definition is_lower (c : ascii) : bool :=
  let n := N_of_ascii c in ((97 <=? n) && (n <=? 122))%N.

Definition lower (c : ascii) : ascii :=
  if is_upper c then ascii_of_N (N_of_ascii c + 32) else c.

Definition upper (c : ascii) : ascii :=
  if is_lower c then ascii_of_N (N_of_ascii c - 32) else c.

Fixpoint str_lower (s : string) : string :=
  match s with
  | EmptyString => EmptyString
  | String c s' => String (lower c) (str_lower s')
  end.

(** [s.capitalize()]: first character upper case, the rest lower case. *)
Definition capitalize (s : string) : string :=
  match s with
  | EmptyString => EmptyString
  | String c s' => String (upper c) (str_lower s')
  end.

(** [", ".join(l)] and the like. *)
Fixpoint join (sep : string) (l : list string) : string :=
  match l with
  | [] => EmptyString
  | [x] => x
  | x :: l' => x +:+ sep +:+ join sep l'
  end.

End Py.
Import Py.

Notation "'let!' x ':=' c 'in' k" := (bind c (fun x => k))
  (at level 10, x name, c at level 100, k at level 200).

(** ** pandas: cells, frames, and the two [drop]s the script uses *)

(** A cell of an object column.  A float is kept as the text [str] gives
    for it: the script never computes with a number, it only compares
    cells with strings, asks whether they are missing, and prints them. *)
Inductive cell : Type :=
| CStr (s : string)
| CNone
| CNaN
| CInt (z : Z)
| CFloat (shown : string).

(** [str(e)], which is also how [astype(str)] turns each cell to text. *)
Definition str_cell (e : cell) : string :=
  match e with
  | CStr s => s
  | CNone => "None"
  | CNaN => "nan"
  | CInt z => str z
  | CFloat shown => shown
  end.

(** Elementwise [e != s] for a string [s]: a missing value or a number is
    different from every string. *)
Definition ne_str (e : cell) (s : string) : bool :=
  match e with
  | CStr t => negb (String.eqb t s)
  | _ => true
  end.

(** Elementwise [isna]. *)
Definition isna (e : cell) : bool :=
  match e with
  | CNone | CNaN => true
  | _ => false
  end.

(** A frame: the column labels in order, and the rows in order, each with
    its index label and its cells aligned to the columns. *)
Record DataFrame : Type := {
  columns : list string;
  rows : list (Z * list cell)
}.

Definition index (df : DataFrame) : list Z := map fst (rows df).

(** The rows of cells, as they are stored.  This is [df.values] for a
    frame with a column of text; for a frame of numbers only, pandas first
    brings all cells to one number type, which changes how an int reads as
    text (not which row or which cell it is): nothing below relies on the
    text of a number. *)
Definition values (df : DataFrame) : list (list cell) := map snd (rows df).

(** Every row has one cell per column. *)
Definition aligned (df : DataFrame) : Prop :=
  Forall (fun r => length (snd r) = length (columns df)) (rows df).

(** [col in df.columns]. *)
Definition has_column (df : DataFrame) (col : string) : bool :=
  existsb (String.eqb col) (columns df).

(** The cell of [row] under the first column labelled [col]; a row shorter
    than the header reads as missing there, as pandas pads it. *)
Fixpoint cell_at (cols : list string) (row : list cell) (col : string) : cell :=
  match cols, row with
  | c :: cols', e :: row' => if String.eqb c col then e else cell_at cols' row' col
  | _, _ => CNaN
  end.

(** A Series: the frame's index labels, each with a value. *)
Definition Series (A : Type) : Type := list (Z * A).

Definition smap {A B} (f : A -> B) (s : Series A) : Series B :=
  map (fun p => (fst p, f (snd p))) s.

(** [df[col]]: [KeyError] when there is no such column. *)
Definition df_getitem (df : DataFrame) (col : string) : result (Series cell) :=
  if has_column df col
  then Ok (map (fun r => (fst r, cell_at (columns df) (snd r) col)) (rows df))
  else Raise (KeyError col).

(** [df.index[mask]] for a boolean Series: the labels at the positions where
    the mask holds. *)
Definition index_where (df : DataFrame) (mask : Series bool) : list Z :=
  map fst (List.filter snd (combine (index df) (map snd mask))).

Definition mem_label (i : Z) (labels : list Z) : bool :=
  existsb (Z.eqb i) labels.

Definition not_found (labels : list Z) : string :=
  "[" +:+ join ", " (map str labels) +:+ "] not found in axis".

(** [df.drop(labels, inplace=True)]: every row carrying one of the labels
    goes; a label that is not in the index raises [KeyError]. *)
Definition drop (labels : list Z) (df : DataFrame) : result DataFrame :=
  match List.filter (fun i => negb (mem_label i (index df))) labels with
  | [] =>
      Ok {| columns := columns df;
            rows := List.filter (fun r => negb (mem_label (fst r) labels)) (rows df) |}
  | missing => Raise (KeyError (not_found missing))
  end.

(** ** The Row Filter *)

(** [remove_rows(df)]; [Ok df'] is the frame after the in-place update. *)
Definition remove_rows (df : DataFrame) : result DataFrame :=
  let! lg := df_getitem df "Lg" in
  let! df := drop (index_where df (smap (fun e => ne_str e "NBA") lg)) df in
  let! season := df_getitem df "Season" in
  let! df := drop (index_where df (smap (contains "season") (smap str_cell season))) df in
  let! season := df_getitem df "Season" in
  drop (index_where df (smap isna season)) df.

Definition five_rows : DataFrame :=
  {| columns := ["Lg"; "Season"];
     rows := [ (0, [CStr "NBA"; CStr "2020-21"]);
               (1, [CStr "Spain"; CStr "2019-20"]);
               (2, [CStr "NBA"; CStr "2-team totals"]);
               (3, [CNone; CNone]);
               (4, [CStr "NBA"; CStr "Career"]) ] |}.

(** ** The URL Builder *)

Definition create_player_url (first_name last_name : string) (n : Z) : result string :=
  let url := "https://www.basketball-reference.com/players" in
  let! initial := str_getitem last_name 0 in
  Ok (url +:+ "/" +:+ initial +:+ "/" +:+ slice 0 5 last_name
          +:+ slice 0 2 first_name +:+ zfill (str n) 2 +:+ ".html").

(** ** The Column Filter *)

(** The cells of [row] under the columns that [keep] retains. *)
Fixpoint pick {A} (keep : string -> bool) (cols : list string) (row : list A) : list A :=
  match cols, row with
  | c :: cols', e :: row' =>
      if keep c then e :: pick keep cols' row' else pick keep cols' row'
  | _, _ => []
  end.

(** [df.drop(columns=col, axis=1, inplace=True)]: every column labelled
    [col] goes, with its cell in each row; [KeyError] when there is none. *)
Definition drop_columns (col : string) (df : DataFrame) : result DataFrame :=
  if has_column df col then
    let keep := fun c => negb (String.eqb c col) in
    Ok {| columns := List.filter keep (columns df);
          rows := map (fun r => (fst r, pick keep (columns df) (snd r))) (rows df) |}
  else Raise (KeyError ("['" +:+ col +:+ "'] not found in axis")).

(** The loop [for col in drop_cols: if col in df.columns: df.drop(...)]. *)
Fixpoint drop_each (drop_cols : list string) (df : DataFrame) : result DataFrame :=
  match drop_cols with
  | [] => Ok df
  | col :: drop_cols' =>
      let! df := (if has_column df col then drop_columns col df else Ok df) in
      drop_each drop_cols' df
  end.

Definition drop_cols : list string := ["2P"; "3P"; "DRB"; "FG"; "FT"; "Lg"].

(** [remove_stats(df)]; [Ok df'] is the frame after the in-place update. *)
Definition remove_stats (df : DataFrame) : result DataFrame :=
  let drop_cols := drop_cols ++ List.filter (contains "Unnamed:") (columns df) in
  drop_each drop_cols df.

(** ** The world outside: network, standard output, terminal *)

Record Response : Type := {
  status_code : Z;
  content : string
}.

(** The two collaborators the script calls: [requests.get] as the answer
    the server gives for a URL, and [pd.read_html] as the tables found in a
    page, or the exception it raises. *)
Record Env : Type := {
  requests_get : string -> Response;
  read_html : string -> result (list DataFrame)
}.

Inductive style : Type :=
| steel_blue1
| bright_cyan
| light_cyan1.

(** A [rich.table.Table]: its title, the [show_lines] option, the header
    and the rows added so far, each with its style. *)
Record Table : Type := {
  title : string;
  show_lines : bool;
  header : list string;
  body : list (list string * style)
}.

Definition add_column (column : string) (t : Table) : Table :=
  {| title := title t; show_lines := show_lines t;
     header := header t ++ [column]; body := body t |}.

Definition add_row (row : list string) (st : style) (t : Table) : Table :=
  {| title := title t; show_lines := show_lines t;
     header := header t; body := body t ++ [(row, st)] |}.

(** What an invocation has done so far: the URLs it requested, the lines
    it wrote with [print], the tables it wrote through the rich [Console]
    (each oldest first).  The two are kept apart to tell the error line
    from the rendered table; on a real terminal the [Console] writes to
    standard output as well. *)
Record world : Type := {
  requested : list string;
  stdout : list string;
  console : list Table
}.

Definition start : world := {| requested := []; stdout := []; console := [] |}.

(** An effectful computation: it ends with a value or an exception, in a
    new world. *)
Definition M (A : Type) : Type := world -> result A * world.

Definition ret {A} (a : A) : M A := fun w => (Ok a, w).

Definition mbind {A B} (c : M A) (k : A -> M B) : M B :=
  fun w =>
    match c w with
    | (Ok a, w') => k a w'
    | (Raise e, w') => (Raise e, w')
    end.

Definition lift {A} (r : result A) : M A := fun w => (r, w).

Notation "'let*' x ':=' c 'in' k" := (mbind c (fun x => k))
  (at level 10, x name, c at level 100, k at level 200).

(** [requests.get(url)] *)
Definition get (env : Env) (url : string) : M Response :=
  fun w =>
    (Ok (requests_get env url),
     {| requested := requested w ++ [url]; stdout := stdout w; console := console w |}).

(** [print(a, b)]: the two texts with a space between, as one line. *)
Definition print (a b : string) : M unit :=
  fun w =>
    (Ok tt,
     {| requested := requested w; stdout := stdout w ++ [a +:+ " " +:+ b];
        console := console w |}).

(** [sys.exit()] *)
Definition sys_exit {A} : M A := fun w => (Raise SystemExit, w).

(** [Console().print(table)] *)
Definition console_print (t : Table) : M unit :=
  fun w =>
    (Ok tt,
     {| requested := requested w; stdout := stdout w; console := console w ++ [t] |}).

(** ** The Page Fetcher and the Table Extractor *)

Definition get_tables (env : Env) (url : string) : M (list DataFrame) :=
  let* page := get env url in
  if negb (status_code page =? 200) then
    let* _ := print "ERROR status code:" (str (status_code page)) in
    sys_exit
  else lift (read_html env (content page)).

(** ** The Table Selector *)

Definition table_map : gmap string Z := {[ "avg" := 0; "tot" := 2; "adv" := 4 ]}.

(** [d[k]] on a dict with string keys. *)
Definition dict_getitem (d : gmap string Z) (k : string) : result Z :=
  match d !! k with
  | Some v => Ok v
  | None => Raise (KeyError k)
  end.

(** [int(b)] *)
Definition int (b : bool) : Z := if b then 1 else 0.

(** [table_idx = table_map[stats] + int(playoffs)] *)
Definition table_idx (stats : string) (playoffs : bool) : result Z :=
  let! base := dict_getitem table_map stats in
  Ok (base + int playoffs).

(** The three lines of [get_player_stats] that choose the table:
    [df = tables[table_idx]]. *)
Definition select_table (tables : list DataFrame) (stats : string) (playoffs : bool)
  : result DataFrame :=
  let! table_idx := table_idx stats playoffs in
  getitem tables table_idx.

Definition get_player_stats (env : Env) (first_name last_name stats : string)
    (playoffs : bool) (n : Z) : M DataFrame :=
  let* url := lift (create_player_url first_name last_name n) in
  let* tables := get_tables env url in
  let* df := lift (select_table tables stats playoffs) in
  let* df := lift (remove_rows df) in
  let* df := lift (remove_stats df) in
  ret df.

(** ** The Renderer *)

(** The style of the row at position [i] whose cells are [row]; [row[0]]
    raises [IndexError] on a row without cells. *)
Definition row_style (i : Z) (row : list string) : result style :=
  let! first := getitem row 0 in
  if String.eqb first "Career" then Ok steel_blue1
  else if i mod 2 =? 0 then Ok bright_cyan
  else Ok light_cyan1.

(** The loop over [enumerate(rows)] that adds each row with its style,
    from position [i] on. *)
Fixpoint add_rows (i : Z) (rows : list (list string)) (t : Table) : result Table :=
  match rows with
  | [] => Ok t
  | row :: rows' =>
      let! st := row_style i row in
      add_rows (i + 1) rows' (add_row row st t)
  end.

Definition season_type (playoffs : bool) : string :=
  if negb playoffs then "Regular Season" else "Playoffs".

Definition make_title (first_name last_name stats : string) (playoffs : bool) : string :=
  capitalize first_name +:+ " " +:+ capitalize last_name +:+ " "
    +:+ season_type playoffs +:+ " " +:+ stats.

(** The table [pprint_df] builds before it prints it. *)
Definition build_table (df : DataFrame) (first_name last_name stats : string)
    (playoffs : bool) : result Table :=
  let table :=
    {| title := make_title first_name last_name stats playoffs;
       show_lines := false; header := []; body := [] |} in
  let rows := map (map str_cell) (values df) in
  let table := fold_left (fun t column => add_column column t) (columns df) table in
  add_rows 0 rows table.

Definition pprint_df (df : DataFrame) (first_name last_name stats : string)
    (playoffs : bool) : M unit :=
  let* table := lift (build_table df first_name last_name stats playoffs) in
  console_print table.

(** [main()], from the arguments [get_args()] has parsed. *)
Definition main (env : Env) (first_name last_name stats : string)
    (playoffs : bool) (n : Z) : M unit :=
  let* df := get_player_stats env first_name last_name stats playoffs n in
  pprint_df df first_name last_name stats playoffs.

(** ** The earlier copy at the repository root *)

Module Legacy.

Definition drop_cols : list string := ["Lg"; "FG"; "3PA"; "FT"; "DRB"].

Definition remove_stats (df : DataFrame) : result DataFrame :=
  drop_each drop_cols df.

(** The loop over [rows]: each row is added with style [bright_cyan]. *)
Definition add_rows (rows : list (list string)) (t : Table) : Table :=
  fold_left (fun t row => add_row row bright_cyan t) rows t.

Definition build_table (df : DataFrame) (first_name last_name stats : string)
    (playoffs : bool) : Table :=
  let table :=
    {| title := make_title first_name last_name stats playoffs;
       show_lines := true; header := []; body := [] |} in
  let rows := map (map str_cell) (values df) in
  let table := fold_left (fun t column => add_column column t) (columns df) table in
  add_rows rows table.

Definition pprint_df (df : DataFrame) (first_name last_name stats : string)
    (playoffs : bool) : M unit :=
  console_print (build_table df first_name last_name stats playoffs).

End Legacy.

(** ** Vocabulary of the statements *)

(** The three masks of [remove_rows], on the cells of one row under the
    header [cols]. *)
Definition overseas (cols : list string) (row : list cell) : bool :=
  ne_str (cell_at cols row "Lg") "NBA".

Definition team_summary (cols : list string) (row : list cell) : bool :=
  contains "season" (str_cell (cell_at cols row "Season")).

Definition trailer (cols : list string) (row : list cell) : bool :=
  isna (cell_at cols row "Season").

(** The labels of the rows a mask selects. *)
Definition labels_where (p : list cell -> bool) (df : DataFrame) : list Z :=
  map fst (List.filter (fun r => p (snd r)) (rows df)).

(** The frame left when the labels a mask selects are dropped. *)
Definition drop_where (p : list cell -> bool) (df : DataFrame) : DataFrame :=
  {| columns := columns df;
     rows := List.filter (fun r => negb (mem_label (fst r) (labels_where p df))) (rows df) |}.

(** A season played somewhere the page names no league for. *)
Definition no_league : DataFrame :=
  {| columns := ["Season"; "Lg"; "PTS"];
     rows := [ (0, [CStr "2018-19"; CNaN; CFloat "11.3"]);
               (1, [CStr "2019-20"; CStr "NBA"; CFloat "20.1"]) ] |}.

(** [col in l] on a list of strings. *)
Definition mem (col : string) (l : list string) : bool :=
  existsb (String.eqb col) l.

(** The columns the Column Filter keeps, by the tests of the code: those
    that are not in the fixed list and do not have the text "Unnamed:"
    anywhere in their label. *)
Definition retained (col : string) : bool :=
  negb (mem col drop_cols) && negb (contains "Unnamed:" col).

(** The frame with only the columns [keep] retains. *)
Definition retain (keep : string -> bool) (df : DataFrame) : DataFrame :=
  {| columns := List.filter keep (columns df);
     rows := map (fun r => (fst r, pick keep (columns df) (snd r))) (rows df) |}.

(** The frame of the Column Filter example, over any rows. *)
Definition seven_columns (rs : list (Z * list cell)) : DataFrame :=
  {| columns := ["Season"; "Lg"; "FG"; "FGA"; "2P"; "2PA"; "Unnamed: 12"];
     rows := rs |}.

(** A frame without any column the Column Filter looks for. *)
Definition plain : DataFrame :=
  {| columns := ["Season"; "FGA"];
     rows := [ (0, [CStr "2020-21"; CFloat "18.3"]); (1, [CStr "Career"; CFloat "17.9"]) ] |}.

(** The stat categories of the command line, the text each is passed as,
    and the position its regular-season table has in the page. *)
Inductive StatCategory : Type :=
| averages
| totals
| advanced.

Definition flag (c : StatCategory) : string :=
  match c with
  | averages => "avg"
  | totals => "tot"
  | advanced => "adv"
  end.

Definition base (c : StatCategory) : Z :=
  match c with
  | averages => 0
  | totals => 2
  | advanced => 4
  end.

(** A frame that holds nothing but a tag, to tell tables apart. *)
Definition tagged (tag : string) : DataFrame :=
  {| columns := ["Lg"; "Season"]; rows := [ (0, [CStr "NBA"; CStr tag]) ] |}.

(** A page with the six tables of a player who played in the playoffs. *)
Definition six_tables : list DataFrame :=
  [ tagged "per game"; tagged "per game, playoffs";
    tagged "totals"; tagged "totals, playoffs";
    tagged "advanced"; tagged "advanced, playoffs" ].

(** A server that answers every request with the given status and body,
    and a page reader that finds the given tables in every page. *)
Definition serving (status : Z) (tables : list DataFrame) : Env :=
  {| requests_get := fun _ => {| status_code := status; content := "<html>" |};
     read_html := fun _ => Ok tables |}.

(** A cleaned table of three seasons and the Career row. *)
Definition four_rows : DataFrame :=
  {| columns := ["Season"; "PTS"];
     rows := [ (0, [CStr "2018-19"; CFloat "11.3"]);
               (1, [CStr "2019-20"; CFloat "20.1"]);
               (2, [CStr "2020-21"; CFloat "23.0"]);
               (4, [CStr "Career"; CFloat "18.1"]) ] |}.

(** The URL pattern of the specification:
    [.../players/{L}/{last5}{first2}{digits}.html]. *)
Definition url_of (L last5 first2 digits : string) : string :=
  "https://www.basketball-reference.com/players/" +:+ L +:+ "/"
    +:+ last5 +:+ first2 +:+ digits +:+ ".html".

(** The first [k] characters of [s], or all of [s] when it has fewer. *)
Fixpoint first_chars (k : nat) (s : string) : string :=
  match k, s with
  | S k', String c s' => String c (first_chars k' s')
  | _, _ => EmptyString
  end.

(** [n] in decimal, with a zero in front when that is a single digit. *)
Definition two_digits (n : Z) : string :=
  if n <? 10 then String "0" (str n) else str n.

(** The URL as the specification words it: the directory segment is the
    first character of the last name in lower case. *)
Definition lowercased_url (first_name last_name : string) (n : Z) : string :=
  url_of (str_lower (first_chars 1 last_name))
         (first_chars 5 last_name) (first_chars 2 first_name) (two_digits n).

(** A row passes the Row Filter's three masks. *)
Definition kept (cols : list string) (row : list cell) : bool :=
  negb (overseas cols row) && negb (team_summary cols row) && negb (trailer cols row).

(** A frame without a Season column. *)
Definition only_lg : DataFrame :=
  {| columns := ["Lg"; "PTS"]; rows := [ (0, [CStr "NBA"; CFloat "11.3"]) ] |}.

(** A frame in which an NBA season shares its index label with a season
    played in another league. *)
Definition shared_label : DataFrame :=
  {| columns := ["Season"; "Lg"];
     rows := [ (0, [CStr "2018-19"; CStr "NBA"]);
               (0, [CStr "2018-19"; CStr "Spain"]);
               (1, [CStr "2019-20"; CStr "NBA"]) ] |}.

(** A frame with rows but without columns. *)
Definition no_columns : DataFrame :=
  {| columns := []; rows := [ (0, []); (1, []) ] |}.

(** The world after one more request. *)
Definition after_request (url : string) (w : world) : world :=
  {| requested := requested w ++ [url]; stdout := stdout w; console := console w |}.


(** A server that answers with status 200 and a page in which the page
    reader finds no table. *)
Definition no_tables : Env :=
  {| requests_get := fun _ => {| status_code := 200; content := "<html>" |};
     read_html := fun _ => Raise (ValueError "No tables found") |}.

(** The columns the Column Filter is after, in the words of the
    specification: the fixed list, and the labels that begin with
    "Unnamed:". *)
Definition spec_target (col : string) : bool :=
  mem col drop_cols || String.prefix "Unnamed:" col.

(** A frame with a column whose label has "Unnamed:" in it, but not at its
    start. *)
Definition odd_placeholder : DataFrame :=
  {| columns := ["Season"; "xUnnamed: 3"; "PTS"];
     rows := [ (0, [CStr "2020-21"; CNaN; CFloat "11.3"]) ] |}.

(** * Properties *)

(** ** Row Filter *)

Lemma mem_label_In (i : Z) (labels : list Z) :
  mem_label i labels = true <-> In i labels.
Proof.
  unfold mem_label. rewrite existsb_exists. split.
  - intros (j & Hj & Heq). apply Z.eqb_eq in Heq. now subst.
  - intros Hi. exists i. split; [assumption | apply Z.eqb_refl].
Qed.

Lemma index_where_rows {A} (g : A -> bool) (lab : A -> Z) (rs : list A) :
  map fst (List.filter snd (combine (map lab rs) (map g rs)))
  = map lab (List.filter g rs).
Proof.
  induction rs as [|r rs IH]; simpl; [reflexivity |].
  destruct (g r); simpl; now rewrite IH.
Qed.

Lemma filter_all {A} (f : A -> bool) (l : list A) :
  Forall (fun x => f x = true) l -> List.filter f l = l.
Proof.
  induction 1 as [|x l Hx _ IH]; simpl; [reflexivity |].
  now rewrite Hx, IH.
Qed.

Lemma filter_none {A} (f : A -> bool) (l : list A) :
  Forall (fun x => f x = false) l -> List.filter f l = [].
Proof.
  induction 1 as [|x l Hx _ IH]; simpl; [reflexivity |].
  now rewrite Hx.
Qed.

(** Dropping labels read off the frame itself never raises. *)
Lemma drop_labels_where (p : list cell -> bool) (df : DataFrame) :
  drop (labels_where p df) df = Ok (drop_where p df).
Proof.
  unfold drop.
  replace (List.filter (fun i => negb (mem_label i (index df))) (labels_where p df))
    with (@nil Z); [reflexivity |].
  symmetry. apply filter_none, List.Forall_forall. intros i Hi.
  apply negb_false_iff, mem_label_In.
  unfold labels_where in Hi. unfold index.
  apply in_map_iff in Hi as (r & <- & Hr).
  apply filter_In in Hr as [Hr _]. now apply in_map.
Qed.

(** After the drop no row satisfies the mask any more. *)
Lemma drop_where_clears (p : list cell -> bool) (df : DataFrame) :
  Forall (fun r => p (snd r) = false) (rows (drop_where p df)).
Proof.
  apply List.Forall_forall. intros r Hr. simpl in Hr.
  apply filter_In in Hr as [Hin Hlab].
  destruct (p (snd r)) eqn:Hp; [| reflexivity].
  apply negb_true_iff in Hlab.
  assert (mem_label (fst r) (labels_where p df) = true) as Hmem; [| congruence].
  apply mem_label_In. unfold labels_where. apply in_map.
  apply filter_In. now split.
Qed.

(** A drop only removes rows. *)
Lemma drop_where_keeps (p : list cell -> bool) (Q : Z * list cell -> Prop) (df : DataFrame) :
  Forall Q (rows df) -> Forall Q (rows (drop_where p df)).
Proof.
  rewrite !List.Forall_forall. intros H r Hr. simpl in Hr.
  apply filter_In in Hr as [Hin _]. now apply H.
Qed.

(** A drop whose mask selects nothing leaves the frame as it is. *)
Lemma drop_where_nothing (p : list cell -> bool) (df : DataFrame) :
  Forall (fun r => p (snd r) = false) (rows df) -> drop_where p df = df.
Proof.
  intros H. unfold drop_where, labels_where.
  rewrite (filter_none (fun r => p (snd r))) by assumption. simpl.
  rewrite filter_all; [now destruct df |].
  apply List.Forall_forall. reflexivity.
Qed.

Lemma smap_smap {A B C} (f : B -> C) (g : A -> B) (s : Series A) :
  smap f (smap g s) = smap (fun e => f (g e)) s.
Proof. unfold smap. rewrite map_map. reflexivity. Qed.

Lemma index_where_column (df : DataFrame) (col : string) (f : cell -> bool) :
  index_where df (smap f (map (fun r => (fst r, cell_at (columns df) (snd r) col)) (rows df)))
  = labels_where (fun row => f (cell_at (columns df) row col)) df.
Proof.
  unfold index_where, smap, index, labels_where.
  rewrite !map_map. simpl.
  apply (index_where_rows (fun r => f (cell_at (columns df) (snd r) col)) fst).
Qed.

(** The Row Filter as three drops over the same header. *)
Lemma remove_rows_steps (df : DataFrame) :
  has_column df "Lg" = true ->
  has_column df "Season" = true ->
  remove_rows df =
  Ok (drop_where (trailer (columns df))
        (drop_where (team_summary (columns df))
           (drop_where (overseas (columns df)) df))).
Proof.
  intros HLg HSeason. unfold remove_rows, df_getitem.
  rewrite HLg. cbn [bind].
  rewrite index_where_column, drop_labels_where. cbn [bind].
  change (has_column (drop_where _ df) "Season") with (has_column df "Season").
  rewrite HSeason. cbn [bind].
  rewrite smap_smap.
  rewrite (index_where_column _ "Season" (fun e => contains "season" (str_cell e))).
  rewrite drop_labels_where. cbn [bind].
  change (has_column (drop_where _ (drop_where _ df)) "Season") with (has_column df "Season").
  rewrite HSeason. cbn [bind].
  rewrite index_where_column, drop_labels_where.
  reflexivity.
Qed.

Lemma drop_where_sub (p : list cell -> bool) (df : DataFrame) (r : Z * list cell) :
  In r (rows (drop_where p df)) -> In r (rows df).
Proof. simpl. intros Hr. now apply filter_In in Hr as [Hr _]. Qed.

(** A row the mask selects takes its label out of the index. *)
Lemma drop_where_label (p : list cell -> bool) (df : DataFrame) (r : Z * list cell) :
  In r (rows df) -> p (snd r) = true -> ~ In (fst r) (index (drop_where p df)).
Proof.
  intros Hr Hp Hin. unfold index in Hin.
  apply in_map_iff in Hin as (r' & Hlab & Hr'). simpl in Hr'.
  apply filter_In in Hr' as [_ Hkeep]. apply negb_true_iff in Hkeep.
  assert (mem_label (fst r') (labels_where p df) = true) as Hmem; [| congruence].
  apply mem_label_In. rewrite Hlab. unfold labels_where.
  apply in_map, filter_In. now split.
Qed.

Lemma drop_where_index_sub (p : list cell -> bool) (df : DataFrame) (i : Z) :
  In i (index (drop_where p df)) -> In i (index df).
Proof.
  unfold index. rewrite !in_map_iff. intros (r & Hi & Hr).
  exists r. split; [assumption | now apply drop_where_sub in Hr].
Qed.

(** C1, as the claim states it, does not hold: the result of the Row
    Filter on the five-row table is not the two rows of the claim. *)
Lemma remove_rows_five_rows_not_two :
  ~ (exists df', remove_rows five_rows = Ok df' /\
                 values df' = [ [CStr "NBA"; CStr "2020-21"];
                                [CStr "NBA"; CStr "Career"] ]).
Proof.
  intros (df' & Hrun & Hval).
  vm_compute in Hrun. injection Hrun as <-. discriminate Hval.
Qed.

(** C1, amended: on the five-row table the Row Filter returns exactly three
    rows, the season 2020-21, the row "2-team totals" and the Career row,
    in that order and under their labels 0, 2 and 4.  The row of the other
    league and the empty trailer row are removed; the row "2-team totals"
    stays, because its Season does not contain "season". *)
Theorem remove_rows_five_rows :
  remove_rows five_rows =
    Ok {| columns := ["Lg"; "Season"];
          rows := [ (0, [CStr "NBA"; CStr "2020-21"]);
                    (2, [CStr "NBA"; CStr "2-team totals"]);
                    (4, [CStr "NBA"; CStr "Career"]) ] |}
  /\ team_summary (columns five_rows) [CStr "NBA"; CStr "2-team totals"] = false.
Proof. split; reflexivity. Qed.

(** C6: the Row Filter is idempotent.  On every frame that has the columns
    Lg and Season it returns a frame, and applied to that frame it returns
    it unchanged. *)
Theorem remove_rows_idempotent (df : DataFrame) :
  has_column df "Lg" = true ->
  has_column df "Season" = true ->
  exists df', remove_rows df = Ok df' /\ remove_rows df' = Ok df'.
Proof.
  intros HLg HSeason.
  rewrite (remove_rows_steps df HLg HSeason).
  set (cols := columns df).
  set (df1 := drop_where (overseas cols) df).
  set (df2 := drop_where (team_summary cols) df1).
  set (df3 := drop_where (trailer cols) df2).
  exists df3. split; [reflexivity |].
  assert (Forall (fun r => overseas cols (snd r) = false) (rows df3)) as H1.
  { do 2 apply drop_where_keeps. apply drop_where_clears. }
  assert (Forall (fun r => team_summary cols (snd r) = false) (rows df3)) as H2.
  { apply drop_where_keeps. apply drop_where_clears. }
  assert (Forall (fun r => trailer cols (snd r) = false) (rows df3)) as H3.
  { apply drop_where_clears. }
  rewrite (remove_rows_steps df3 HLg HSeason).
  change (columns df3) with cols.
  now rewrite (drop_where_nothing _ df3 H1), (drop_where_nothing _ df3 H2),
    (drop_where_nothing _ df3 H3).
Qed.

Lemma remove_rows_idempotent_witness :
  exists df', remove_rows five_rows = Ok df' /\ remove_rows df' = Ok df'.
Proof. apply (remove_rows_idempotent five_rows); reflexivity. Defined.

(** C10: the first mask of the Row Filter, [df['Lg'] != 'NBA'], holds on
    every row whose Lg cell is missing, whatever its Season is, and the
    label of such a row is not in the index of the frame the Row Filter
    returns. *)
Theorem remove_rows_missing_league (df : DataFrame) (r : Z * list cell) :
  has_column df "Lg" = true ->
  has_column df "Season" = true ->
  In r (rows df) ->
  isna (cell_at (columns df) (snd r) "Lg") = true ->
  overseas (columns df) (snd r) = true /\
  exists df', remove_rows df = Ok df' /\ ~ In (fst r) (index df') /\ ~ In r (rows df').
Proof.
  intros HLg HSeason Hr Hna.
  assert (overseas (columns df) (snd r) = true) as Hmask.
  { unfold overseas. destruct (cell_at (columns df) (snd r) "Lg"); try discriminate; reflexivity. }
  split; [assumption |].
  rewrite (remove_rows_steps df HLg HSeason).
  eexists. split; [reflexivity |].
  assert (~ In (fst r)
            (index (drop_where (trailer (columns df))
                      (drop_where (team_summary (columns df))
                         (drop_where (overseas (columns df)) df))))) as Hlab.
  { intros Hin. do 2 apply drop_where_index_sub in Hin.
    now apply (drop_where_label _ df r Hr Hmask). }
  split; [assumption |].
  intros Hin. apply Hlab. unfold index. now apply in_map.
Qed.

Lemma remove_rows_missing_league_witness :
  isna (cell_at (columns no_league) [CStr "2018-19"; CNaN; CFloat "11.3"] "Season") = false /\
  overseas (columns no_league) [CStr "2018-19"; CNaN; CFloat "11.3"] = true /\
  exists df', remove_rows no_league = Ok df' /\
              ~ In 0 (index df') /\
              ~ In (0, [CStr "2018-19"; CNaN; CFloat "11.3"]) (rows df').
Proof.
  split; [reflexivity |].
  apply (remove_rows_missing_league no_league (0, [CStr "2018-19"; CNaN; CFloat "11.3"]));
    [reflexivity | reflexivity | now left | reflexivity].
Defined.

(** ** Column Filter *)

Lemma mem_In (col : string) (l : list string) : mem col l = true <-> In col l.
Proof.
  unfold mem. rewrite existsb_exists. split.
  - intros (c & Hc & Heq). apply String.eqb_eq in Heq. now subst.
  - intros Hc. exists col. split; [assumption | apply String.eqb_refl].
Qed.

Lemma has_column_In (df : DataFrame) (col : string) :
  has_column df col = true <-> In col (columns df).
Proof. apply mem_In. Qed.

Lemma pick_nil {A} (keep : string -> bool) (cols : list string) :
  pick keep cols (@nil A) = [].
Proof. now destruct cols. Qed.

Lemma pick_pick {A} (k1 k2 : string -> bool) (cols : list string) (row : list A) :
  pick k2 (List.filter k1 cols) (pick k1 cols row)
  = pick (fun c => k1 c && k2 c) cols row.
Proof.
  revert row. induction cols as [|c cols IH]; intros [|e row]; simpl; try reflexivity.
  - apply pick_nil.
  - destruct (k1 c); simpl; [destruct (k2 c) |]; now rewrite IH.
Qed.

Lemma filter_filter {A} (f g : A -> bool) (l : list A) :
  List.filter g (List.filter f l) = List.filter (fun x => f x && g x) l.
Proof.
  induction l as [|x l IH]; simpl; [reflexivity |].
  destruct (f x); simpl; [destruct (g x) |]; now rewrite IH.
Qed.

Lemma pick_ext_in {A} (k1 k2 : string -> bool) (cols : list string) (row : list A) :
  (forall c, In c cols -> k1 c = k2 c) -> pick k1 cols row = pick k2 cols row.
Proof.
  revert row. induction cols as [|c cols IH]; intros [|e row] H; simpl; try reflexivity.
  rewrite (H c) by now left.
  rewrite (IH row) by (intros c' Hc'; apply H; now right).
  reflexivity.
Qed.

Lemma retain_retain (k1 k2 : string -> bool) (df : DataFrame) :
  retain k2 (retain k1 df) = retain (fun c => k1 c && k2 c) df.
Proof.
  unfold retain. simpl. rewrite filter_filter, map_map. simpl.
  f_equal. apply map_ext. intros r. now rewrite pick_pick.
Qed.

Lemma retain_ext_in (k1 k2 : string -> bool) (df : DataFrame) :
  (forall c, In c (columns df) -> k1 c = k2 c) -> retain k1 df = retain k2 df.
Proof.
  intros H. unfold retain. f_equal.
  - now apply filter_ext_in.
  - apply map_ext. intros r. now rewrite (pick_ext_in k1 k2).
Qed.

Lemma drop_columns_retain (col : string) (df : DataFrame) :
  has_column df col = true ->
  drop_columns col df = Ok (retain (fun c => negb (String.eqb c col)) df).
Proof. intros H. unfold drop_columns. now rewrite H. Qed.

(** The loop drops the listed columns that are there; when none is, the
    frame is the one it was given. *)
Lemma drop_each_retain (l : list string) (df : DataFrame) :
  drop_each l df =
  Ok (if existsb (has_column df) l then retain (fun c => negb (mem c l)) df else df).
Proof.
  revert df. induction l as [|col l IH]; intros df; [reflexivity |].
  cbn [drop_each existsb].
  destruct (has_column df col) eqn:Hcol.
  - rewrite drop_columns_retain by assumption. cbn [bind orb].
    rewrite IH. f_equal.
    set (df1 := retain _ df).
    destruct (existsb (has_column df1) l) eqn:Hmore.
    + unfold df1. rewrite retain_retain. apply retain_ext_in.
      intros c _. unfold mem. simpl. now rewrite negb_orb.
    + unfold df1. apply retain_ext_in. intros c Hc.
      unfold mem. simpl. rewrite negb_orb.
      destruct (String.eqb c col) eqn:Heq; [reflexivity |]. simpl.
      destruct (existsb (String.eqb c) l) eqn:Hin; [| reflexivity]. exfalso.
      apply (mem_In c l) in Hin.
      assert (existsb (has_column df1) l = true) as Hyes; [| congruence].
      apply existsb_exists. exists c. split; [assumption |].
      apply has_column_In. unfold df1. simpl. apply filter_In.
      split; [assumption | now rewrite Heq].
  - cbn [bind orb]. rewrite IH. f_equal.
    destruct (existsb (has_column df) l); [| reflexivity].
    apply retain_ext_in. intros c Hc. unfold mem. simpl. rewrite negb_orb.
    destruct (String.eqb c col) eqn:Heq; [| reflexivity]. exfalso.
    apply String.eqb_eq in Heq. subst c.
    apply has_column_In in Hc. congruence.
Qed.

Lemma cell_at_nil (cols : list string) (c : string) : cell_at cols [] c = CNaN.
Proof. now destruct cols. Qed.

Lemma cell_at_pick (keep : string -> bool) (cols : list string) (row : list cell) (c : string) :
  keep c = true ->
  cell_at (List.filter keep cols) (pick keep cols row) c = cell_at cols row c.
Proof.
  intros Hc. revert row.
  induction cols as [|c0 cols IH]; intros [|e row]; try reflexivity.
  - now rewrite pick_nil, !cell_at_nil.
  - simpl. destruct (keep c0) eqn:Hc0; simpl.
    + destruct (String.eqb c0 c); [reflexivity | apply IH].
    + destruct (String.eqb c0 c) eqn:Heq; [| apply IH].
      apply String.eqb_eq in Heq. congruence.
Qed.

Lemma pick_all {A} (keep : string -> bool) (cols : list string) (row : list A) :
  (forall c, In c cols -> keep c = true) ->
  (length row <= length cols)%nat ->
  pick keep cols row = row.
Proof.
  revert row. induction cols as [|c cols IH]; intros [|e row] Hall Hlen;
    simpl in *; try reflexivity; [lia |].
  rewrite (Hall c) by now left.
  rewrite IH; [reflexivity | intros c' Hc'; apply Hall; now right | lia].
Qed.

(** What the Column Filter looks for in a frame: the fixed list, then the
    frame's own placeholder columns. *)
Lemma retained_targets (df : DataFrame) (c : string) :
  In c (columns df) ->
  negb (mem c (drop_cols ++ List.filter (contains "Unnamed:") (columns df))) = retained c.
Proof.
  intros Hc. unfold retained, mem. rewrite existsb_app, negb_orb. f_equal. f_equal.
  destruct (contains "Unnamed:" c) eqn:Hun.
  - apply existsb_exists. exists c. split; [| apply String.eqb_refl].
    apply filter_In. now split.
  - destruct (existsb _ _) eqn:Hex; [| reflexivity].
    apply existsb_exists in Hex as (c' & Hc' & Heq).
    apply String.eqb_eq in Heq. subst c'.
    apply filter_In in Hc' as [_ Hc']. congruence.
Qed.

Lemma no_target_all_retained (df : DataFrame) :
  existsb (has_column df) (drop_cols ++ List.filter (contains "Unnamed:") (columns df)) = false
  <-> (forall c, In c (columns df) -> retained c = true).
Proof.
  split.
  - intros Hnone c Hc. rewrite <- (retained_targets df c Hc).
    apply negb_true_iff. destruct (mem c _) eqn:Hmem; [| reflexivity].
    apply mem_In in Hmem.
    assert (existsb (has_column df) (drop_cols ++ List.filter (contains "Unnamed:") (columns df)) = true)
      as Hyes; [| congruence].
    apply existsb_exists. exists c. split; [assumption | now apply has_column_In].
  - intros Hall. destruct (existsb _ _) eqn:Hex; [| reflexivity].
    apply existsb_exists in Hex as (c & Hc & Hhas).
    apply has_column_In in Hhas.
    specialize (Hall c Hhas). rewrite <- (retained_targets df c Hhas) in Hall.
    apply negb_true_iff in Hall. apply mem_In in Hc. congruence.
Qed.

(** The Column Filter in one step. *)
Lemma remove_stats_retain (df : DataFrame) :
  remove_stats df =
  Ok (if existsb (has_column df) (drop_cols ++ List.filter (contains "Unnamed:") (columns df))
      then retain retained df else df).
Proof.
  unfold remove_stats. rewrite drop_each_retain. f_equal.
  destruct (existsb _ _); [| reflexivity].
  apply retain_ext_in. intros c Hc. now apply retained_targets.
Qed.

(** C4: on a frame with the columns Season, Lg, FG, FGA, 2P, 2PA and
    Unnamed: 12, whatever its rows, the Column Filter returns a frame whose
    columns are exactly Season, FGA, 2PA, in that order. *)
Theorem remove_stats_seven_columns (rs : list (Z * list cell)) :
  exists df', remove_stats (seven_columns rs) = Ok df' /\
              columns df' = ["Season"; "FGA"; "2PA"].
Proof.
  rewrite remove_stats_retain.
  eexists. split; reflexivity.
Qed.

(** C7, as the claim states it, does not hold: on a frame that has none
    of the fixed columns and no label beginning with "Unnamed:", the Column
    Filter is not a no-op when a label has "Unnamed:" further in; the
    column "xUnnamed: 3" is removed. *)
Lemma remove_stats_not_noop :
  (forall c, In c (columns odd_placeholder) -> spec_target c = false) /\
  remove_stats odd_placeholder =
    Ok {| columns := ["Season"; "PTS"];
          rows := [ (0, [CStr "2020-21"; CFloat "11.3"]) ] |} /\
  remove_stats odd_placeholder <> Ok odd_placeholder.
Proof.
  split; [| split].
  - intros c [<- | [<- | [<- | []]]]; reflexivity.
  - reflexivity.
  - vm_compute. discriminate.
Qed.

(** C7, amended: the Column Filter returns a frame with the same index in
    the same order, whose columns are the retained columns of the input in
    their order, and in which every row has, under each retained column,
    the cell it had; on a frame whose rows are aligned to the header each
    row is the old row without the cells of the removed columns.  A column
    is retained when its label is not in the fixed list and does not
    contain "Unnamed:" anywhere; when every column of the input is
    retained, the frame is returned as it was. *)
Theorem remove_stats_frame (df : DataFrame) :
  exists df',
    remove_stats df = Ok df' /\
    index df' = index df /\
    columns df' = List.filter retained (columns df) /\
    Forall2 (fun r r' =>
               fst r' = fst r /\
               forall c, retained c = true ->
                         cell_at (columns df') (snd r') c = cell_at (columns df) (snd r) c)
            (rows df) (rows df') /\
    (aligned df ->
     rows df' = map (fun r => (fst r, pick retained (columns df) (snd r))) (rows df)) /\
    ((forall c, In c (columns df) -> retained c = true) -> df' = df).
Proof.
  rewrite remove_stats_retain.
  destruct (existsb _ _) eqn:Hany; eexists; (split; [reflexivity |]).
  - split; [| split; [| split; [| split]]].
    + unfold index, retain. simpl. rewrite map_map. reflexivity.
    + reflexivity.
    + simpl. induction (rows df) as [|r rs IH]; simpl; constructor; [| exact IH].
      split; [reflexivity |]. intros c Hc. simpl. now apply cell_at_pick.
    + reflexivity.
    + intros Hall. apply no_target_all_retained in Hall. congruence.
  - pose proof (proj1 (no_target_all_retained df) Hany) as Hall.
    assert (List.filter retained (columns df) = columns df) as Hcols.
    { apply filter_all, List.Forall_forall. exact Hall. }
    split; [| split; [| split; [| split]]].
    + reflexivity.
    + now rewrite Hcols.
    + induction (rows df) as [|r rs IH]; constructor; [| exact IH].
      split; reflexivity.
    + intros Hal. unfold aligned in Hal.
      induction Hal as [|r rs Hr _ IH]; simpl; [reflexivity |].
      rewrite <- IH. f_equal. destruct r as [i row]. simpl in *.
      rewrite pick_all; [reflexivity | exact Hall | lia].
    + reflexivity.
Qed.

Lemma remove_stats_frame_witness :
  aligned plain /\
  (forall c, In c (columns plain) -> retained c = true) /\
  exists df',
    remove_stats plain = Ok df' /\
    rows df' = map (fun r => (fst r, pick retained (columns plain) (snd r))) (rows plain) /\
    df' = plain.
Proof.
  assert (aligned plain) as Hal.
  { repeat constructor. }
  assert (forall c, In c (columns plain) -> retained c = true) as Hall.
  { intros c [<- | [<- | []]]; reflexivity. }
  split; [exact Hal |]. split; [exact Hall |].
  destruct (remove_stats_frame plain) as (df' & Hrun & _ & _ & _ & Hrows & Hsame).
  exists df'. split; [exact Hrun |]. split; [exact (Hrows Hal) | exact (Hsame Hall)].
Defined.

(** ** Table Selector *)

Lemma getitem_lookup {A} (l : list A) (i : Z) (x : A) :
  0 <= i -> l !! Z.to_nat i = Some x -> getitem l i = Ok x.
Proof.
  intros Hi Hx. unfold getitem.
  pose proof (lookup_lt_Some _ _ _ Hx) as Hlt.
  destruct (i <? 0) eqn:Hneg; [lia |].
  destruct (0 <=? i) eqn:H0; [| lia].
  destruct (i <? Z.of_nat (length l)) eqn:Hn; [| lia].
  simpl. now rewrite Hx.
Qed.

Lemma getitem_out_of_range {A} (l : list A) (i : Z) :
  Z.of_nat (length l) <= i -> getitem l i = Raise IndexError.
Proof.
  intros Hi. unfold getitem.
  destruct (i <? 0) eqn:Hneg; [lia |].
  destruct (i <? Z.of_nat (length l)) eqn:Hn; [lia |].
  now rewrite andb_false_r.
Qed.

Lemma table_idx_flag (c : StatCategory) (playoffs : bool) :
  table_idx (flag c) playoffs = Ok (base c + (if playoffs then 1 else 0)).
Proof. destruct c, playoffs; reflexivity. Qed.

Lemma base_nonneg (c : StatCategory) (playoffs : bool) :
  0 <= base c + (if playoffs then 1 else 0).
Proof. destruct c, playoffs; simpl; lia. Qed.

(** C2: for each stat category and each season type the index computed is
    the base of the category (0 for averages, 2 for totals, 4 for advanced)
    plus 1 for the playoffs, and the Table Selector returns the table at
    that position of the sequence; averages/regular is index 0,
    averages/playoffs 1, totals/regular 2, advanced/playoffs 5. *)
Theorem select_table_position (tables : list DataFrame) (c : StatCategory) (playoffs : bool) :
  table_idx (flag c) playoffs = Ok (base c + (if playoffs then 1 else 0)) /\
  (forall df,
     tables !! Z.to_nat (base c + (if playoffs then 1 else 0)) = Some df ->
     select_table tables (flag c) playoffs = Ok df) /\
  table_idx (flag averages) false = Ok 0 /\
  table_idx (flag averages) true = Ok 1 /\
  table_idx (flag totals) false = Ok 2 /\
  table_idx (flag advanced) true = Ok 5.
Proof.
  split; [apply table_idx_flag |].
  split; [| repeat split; reflexivity].
  intros df Hdf. unfold select_table. rewrite table_idx_flag. cbn [bind].
  apply getitem_lookup; [apply base_nonneg | exact Hdf].
Qed.

Lemma select_table_position_witness :
  select_table six_tables (flag advanced) true = Ok (tagged "advanced, playoffs").
Proof.
  apply (proj1 (proj2 (select_table_position six_tables advanced true))).
  reflexivity.
Defined.

(** ** Page Fetcher *)

Lemma get_tables_not_200 (env : Env) (url : string) (w : world) :
  status_code (requests_get env url) <> 200 ->
  get_tables env url w =
    (Raise SystemExit,
     {| requested := requested w ++ [url];
        stdout := stdout w ++ ["ERROR status code: " +:+ str (status_code (requests_get env url))];
        console := console w |}).
Proof.
  intros Hbad. unfold get_tables, mbind, get. cbn [fst snd].
  destruct (status_code (requests_get env url) =? 200) eqn:H200; [lia |].
  reflexivity.
Qed.

Lemma get_tables_200 (env : Env) (url : string) (w : world) :
  status_code (requests_get env url) = 200 ->
  get_tables env url w =
    (read_html env (content (requests_get env url)),
     {| requested := requested w ++ [url]; stdout := stdout w; console := console w |}).
Proof.
  intros Hok. unfold get_tables, mbind, get. cbn [fst snd].
  rewrite Hok. reflexivity.
Qed.

(** C8: when the status code of the response is not 200, [get_tables]
    prints the line "ERROR status code: " followed by the code and raises
    SystemExit, after that one request; the invocation ends there, with
    nothing extracted and nothing rendered.  When the status code is 200
    it goes on to the extraction of the tables from the content of the
    page, after that one request and with nothing printed. *)
Theorem get_tables_status (env : Env) (url : string) (w : world) :
  (status_code (requests_get env url) <> 200 ->
   get_tables env url w =
     (Raise SystemExit,
      {| requested := requested w ++ [url];
         stdout := stdout w ++ ["ERROR status code: " +:+ str (status_code (requests_get env url))];
         console := console w |}) /\
   forall first_name last_name stats playoffs n,
     create_player_url first_name last_name n = Ok url ->
     main env first_name last_name stats playoffs n w =
       (Raise SystemExit,
        {| requested := requested w ++ [url];
           stdout := stdout w ++ ["ERROR status code: " +:+ str (status_code (requests_get env url))];
           console := console w |})) /\
  (status_code (requests_get env url) = 200 ->
   get_tables env url w =
     (read_html env (content (requests_get env url)),
      {| requested := requested w ++ [url]; stdout := stdout w; console := console w |})).
Proof.
  split; [| apply get_tables_200].
  intros Hbad. split; [now apply get_tables_not_200 |].
  intros first_name last_name stats playoffs n Hurl.
  unfold main, get_player_stats, mbind at 1 2 3, lift at 1.
  rewrite Hurl, (get_tables_not_200 env url w Hbad). reflexivity.
Qed.

Lemma get_tables_status_witness :
  (get_tables (serving 404 six_tables) "u" start =
     (Raise SystemExit,
      {| requested := ["u"]; stdout := ["ERROR status code: 404"]; console := [] |})) /\
  (get_tables (serving 200 six_tables) "u" start =
     (Ok six_tables, {| requested := ["u"]; stdout := []; console := [] |})).
Proof.
  split.
  - apply (proj1 (get_tables_status (serving 404 six_tables) "u" start)).
    simpl. lia.
  - apply (proj2 (get_tables_status (serving 200 six_tables) "u" start)).
    reflexivity.
Defined.

(** ** Layout mismatch *)

(** C9: when the sequence of extracted tables is no longer than the
    computed index, the Table Selector raises IndexError; nothing in the
    script catches it, so the invocation ends with that exception after its
    one request, with nothing printed and nothing rendered. *)
Theorem select_table_out_of_range (env : Env) (first_name last_name url : string)
    (c : StatCategory) (playoffs : bool) (n : Z) (tables : list DataFrame) (w : world) :
  Z.of_nat (length tables) <= base c + (if playoffs then 1 else 0) ->
  select_table tables (flag c) playoffs = Raise IndexError /\
  (create_player_url first_name last_name n = Ok url ->
   status_code (requests_get env url) = 200 ->
   read_html env (content (requests_get env url)) = Ok tables ->
   main env first_name last_name (flag c) playoffs n w =
     (Raise IndexError,
      {| requested := requested w ++ [url]; stdout := stdout w; console := console w |})).
Proof.
  intros Hshort.
  assert (select_table tables (flag c) playoffs = Raise IndexError) as Hsel.
  { unfold select_table. rewrite table_idx_flag. cbn [bind].
    now apply getitem_out_of_range. }
  split; [exact Hsel |].
  intros Hurl H200 Hread.
  unfold main, get_player_stats, mbind at 1 2 3, lift at 1.
  rewrite Hurl, (get_tables_200 env url w H200), Hread.
  unfold mbind, lift. rewrite Hsel. reflexivity.
Qed.

Lemma select_table_out_of_range_witness :
  select_table (firstn 5 six_tables) (flag advanced) true = Raise IndexError /\
  main (serving 200 (firstn 5 six_tables)) "lebron" "james" (flag advanced) true 1 start =
    (Raise IndexError,
     {| requested := ["https://www.basketball-reference.com/players/j/jamesle01.html"];
        stdout := []; console := [] |}).
Proof.
  destruct (select_table_out_of_range (serving 200 (firstn 5 six_tables))
              "lebron" "james"
              "https://www.basketball-reference.com/players/j/jamesle01.html"
              advanced true 1 (firstn 5 six_tables) start) as [Hsel Hmain].
  - simpl. lia.
  - split; [exact Hsel |]. apply Hmain; reflexivity.
Defined.

(** ** Renderer *)

Lemma add_columns_body (cols : list string) (t : Table) :
  body (fold_left (fun t column => add_column column t) cols t) = body t.
Proof.
  revert t. induction cols as [|c cols IH]; intros t; simpl; [reflexivity |].
  now rewrite IH.
Qed.

Lemma row_style_cons (i : Z) (first : string) (rest : list string) :
  row_style i (first :: rest) =
  Ok (if String.eqb first "Career" then steel_blue1
      else if i mod 2 =? 0 then bright_cyan else light_cyan1).
Proof.
  unfold row_style, getitem. simpl.
  destruct (String.eqb first "Career"); [reflexivity |].
  now destruct (i mod 2 =? 0).
Qed.

(** The loop adds the rows in order after those already there, each with
    the style of its position. *)
Lemma add_rows_body (rows : list (list string)) (i : Z) (t : Table) :
  Forall (fun row => row <> []) rows ->
  exists added,
    add_rows i rows t =
      Ok {| title := title t; show_lines := show_lines t; header := header t;
            body := body t ++ added |} /\
    map fst added = rows /\
    forall (k : nat) row st,
      added !! k = Some (row, st) -> row_style (i + Z.of_nat k) row = Ok st.
Proof.
  intros Hrows. revert i t.
  induction Hrows as [|row rows Hrow _ IH]; intros i t.
  - exists []. split; [| split].
    + simpl. rewrite app_nil_r. now destruct t.
    + reflexivity.
    + intros k row st Hk. destruct k; discriminate.
  - destruct row as [|first rest]; [congruence |].
    cbn [add_rows]. rewrite row_style_cons. cbn [bind].
    set (st0 := if String.eqb first "Career" then steel_blue1
                else if i mod 2 =? 0 then bright_cyan else light_cyan1).
    destruct (IH (i + 1) (add_row (first :: rest) st0 t)) as (added & Hrun & Hfst & Hst).
    exists ((first :: rest, st0) :: added). split; [| split].
    + rewrite Hrun. simpl. now rewrite <- app_assoc.
    + simpl. now rewrite Hfst.
    + intros k row st Hk. destruct k as [|k]; simpl in Hk.
      * injection Hk as <- <-. rewrite Z.add_0_r. apply row_style_cons.
      * specialize (Hst k row st Hk).
        replace (i + Z.of_nat (S k)) with (i + 1 + Z.of_nat k) by lia.
        exact Hst.
Qed.

Lemma even_mod2 (k : nat) : Nat.Even k -> Z.of_nat k mod 2 = 0.
Proof.
  intros [m ->]. rewrite Nat2Z.inj_mul, Z.mul_comm. apply Z_mod_mult.
Qed.

Lemma odd_mod2 (k : nat) : Nat.Odd k -> Z.of_nat k mod 2 = 1.
Proof.
  intros [m ->]. rewrite Nat2Z.inj_add, Nat2Z.inj_mul, Z.add_comm, Z.mul_comm.
  rewrite Z_mod_plus_full. reflexivity.
Qed.

(** C5: for a frame in which every row has a cell, the Renderer prints one
    table whose rows are the rows of the frame as text, in order; the row
    whose first cell is "Career" has the style steel_blue1 whatever its
    position, and every other row has bright_cyan at an even position and
    light_cyan1 at an odd one.  For the four rows R0..R3 with "Career"
    first in R3 the styles are bright_cyan, light_cyan1, bright_cyan,
    steel_blue1. *)
Theorem pprint_df_banding (df : DataFrame) (first_name last_name stats : string)
    (playoffs : bool) (w : world) :
  Forall (fun r => snd r <> []) (rows df) ->
  (exists t,
     build_table df first_name last_name stats playoffs = Ok t /\
     pprint_df df first_name last_name stats playoffs w =
       (Ok tt, {| requested := requested w; stdout := stdout w; console := console w ++ [t] |}) /\
     map fst (body t) = map (map str_cell) (values df) /\
     forall (i : nat) row st,
       body t !! i = Some (row, st) ->
       exists first rest,
         row = first :: rest /\
         (first = "Career" -> st = steel_blue1) /\
         (first <> "Career" -> Nat.Even i -> st = bright_cyan) /\
         (first <> "Career" -> Nat.Odd i -> st = light_cyan1)) /\
  (exists t,
     build_table four_rows first_name last_name stats playoffs = Ok t /\
     map snd (body t) = [bright_cyan; light_cyan1; bright_cyan; steel_blue1]).
Proof.
  intros Hrows. split; [| eexists; split; reflexivity].
  unfold pprint_df, build_table.
  set (t0 := fold_left _ (columns df) _).
  destruct (add_rows_body (map (map str_cell) (values df)) 0 t0) as (added & Hrun & Hfst & Hst).
  { unfold values. rewrite map_map. apply List.Forall_forall.
    intros row Hin. apply in_map_iff in Hin as (r & <- & Hr).
    rewrite List.Forall_forall in Hrows. specialize (Hrows r Hr).
    destruct (snd r); [congruence | discriminate]. }
  assert (body t0 = []) as Hbody0.
  { unfold t0. now rewrite add_columns_body. }
  rewrite Hbody0 in Hrun. simpl in Hrun.
  eexists. split; [exact Hrun |]. split; [| split].
  - unfold mbind, lift, console_print. rewrite Hrun. reflexivity.
  - exact Hfst.
  - simpl. intros i row st Hi. specialize (Hst i row st Hi).
    rewrite Z.add_0_l in Hst.
    destruct row as [|first rest]; [discriminate |].
    rewrite row_style_cons in Hst. injection Hst as <-.
    exists first, rest. split; [reflexivity |].
    destruct (String.eqb first "Career") eqn:Hcareer.
    + apply String.eqb_eq in Hcareer. repeat split; congruence.
    + apply String.eqb_neq in Hcareer. split; [congruence |]. split.
      * intros _ Hev. now rewrite (even_mod2 i Hev).
      * intros _ Hodd. now rewrite (odd_mod2 i Hodd).
Qed.

Lemma pprint_df_banding_witness :
  exists t,
    build_table four_rows "lebron" "james" "avg" false = Ok t /\
    pprint_df four_rows "lebron" "james" "avg" false start =
      (Ok tt, {| requested := []; stdout := []; console := [t] |}).
Proof.
  destruct (pprint_df_banding four_rows "lebron" "james" "avg" false start)
    as [(t & Hbuild & Hprint & _) _].
  - repeat constructor; discriminate.
  - exists t. split; [exact Hbuild | exact Hprint].
Defined.

(** The earlier copy of the script has no banding: every row, the Career
    row too, is added with bright_cyan. *)
Lemma legacy_add_rows_body (rows : list (list string)) (t : Table) :
  body (Legacy.add_rows rows t) = body t ++ map (fun row => (row, bright_cyan)) rows.
Proof.
  unfold Legacy.add_rows. revert t.
  induction rows as [|row rows IH]; intros t; simpl.
  - now rewrite app_nil_r.
  - rewrite IH. simpl. now rewrite <- app_assoc.
Qed.

Lemma legacy_pprint_df_plain (df : DataFrame) (first_name last_name stats : string)
    (playoffs : bool) :
  body (Legacy.build_table df first_name last_name stats playoffs)
  = map (fun row => (row, bright_cyan)) (map (map str_cell) (values df)).
Proof.
  unfold Legacy.build_table. rewrite legacy_add_rows_body, add_columns_body.
  reflexivity.
Qed.

(** ** URL Builder *)

Lemma substring_first_chars (k : nat) (s : string) :
  String.substring 0 k s = first_chars k s.
Proof.
  revert s. induction k as [|k IH]; intros [|c s]; simpl; try reflexivity.
  now rewrite IH.
Qed.

Lemma first_chars_short (k : nat) (s : string) :
  (String.length s <= k)%nat -> first_chars k s = s.
Proof.
  revert s. induction k as [|k IH]; intros [|c s] Hlen; simpl in *;
    try reflexivity; [lia |].
  rewrite IH; [reflexivity | lia].
Qed.

Lemma first_chars_length (k : nat) (s : string) :
  String.length (first_chars k s) = Nat.min k (String.length s).
Proof.
  revert s. induction k as [|k IH]; intros [|c s]; simpl; try reflexivity.
  now rewrite IH.
Qed.

Lemma zfill_long (s : string) (width : nat) :
  (width <= String.length s)%nat -> zfill s width = s.
Proof.
  intros Hlen. unfold zfill.
  replace (width - String.length s)%nat with 0%nat by lia. simpl.
  destruct s as [|c s]; [reflexivity |].
  now destruct (is_sign c).
Qed.

(** A number from 10 on is written with two digits at least. *)
Lemma str_length_from_10 (n : Z) : 10 <= n -> (2 <= String.length (str n))%nat.
Proof.
  intros Hn. destruct n as [|p|p]; try lia.
  unfold str. simpl.
  pose proof (Unsigned.of_to p) as Hp.
  destruct (Pos.to_uint p) as [|d|d|d|d|d|d|d|d|d|d]; simpl in Hp; try discriminate;
    destruct d; simpl in *; try lia; try discriminate;
    injection Hp as Hp; lia.
Qed.

(** A number below 10 is written with one digit. *)
Lemma zfill_one_digit (p : positive) :
  Z.pos p < 10 -> zfill (str (Z.pos p)) 2 = String "0" (str (Z.pos p)).
Proof.
  intros Hp.
  do 4 (try destruct p as [p|p|]); try lia; reflexivity.
Qed.

Lemma zfill_two_digits (n : Z) : 0 <= n -> zfill (str n) 2 = two_digits n.
Proof.
  intros Hn. unfold two_digits.
  destruct (n <? 10) eqn:Hlt.
  - destruct n as [|p|p]; [reflexivity | apply zfill_one_digit | ]; lia.
  - apply zfill_long, str_length_from_10. lia.
Qed.

(** C3, as the claim states it, does not hold: the directory segment is
    not put in lower case. *)
Lemma create_player_url_not_lowercased :
  create_player_url "LeBron" "James" 1 <> Ok (lowercased_url "LeBron" "James" 1).
Proof. vm_compute. discriminate. Qed.

(** C3, amended: for every first name, every last name that is not empty
    and every [n >= 1] the URL Builder returns, without raising, the URL
    [.../players/{L}/{last5}{first2}{digits}.html], where [L] is the first
    character of the last name as it was passed, [last5] and [first2] are
    the first 5 and first 2 characters of the last and first name (the
    whole name when it is shorter) and [digits] is [n] in decimal with a
    zero in front when it is below 10.  When the last name starts with a
    character that is not an upper-case letter, this is the URL with the
    lower-case segment. *)
Theorem create_player_url_pattern (first_name last_name : string) (n : Z) :
  last_name <> EmptyString ->
  1 <= n ->
  create_player_url first_name last_name n =
    Ok (url_of (first_chars 1 last_name) (first_chars 5 last_name)
               (first_chars 2 first_name) (two_digits n)) /\
  ((String.length last_name <= 5)%nat -> first_chars 5 last_name = last_name) /\
  ((String.length first_name <= 2)%nat -> first_chars 2 first_name = first_name) /\
  (str_lower (first_chars 1 last_name) = first_chars 1 last_name ->
   create_player_url first_name last_name n = Ok (lowercased_url first_name last_name n)).
Proof.
  intros Hlast Hn.
  assert (create_player_url first_name last_name n =
            Ok (url_of (first_chars 1 last_name) (first_chars 5 last_name)
                       (first_chars 2 first_name) (two_digits n))) as Hurl.
  { destruct last_name as [|c rest]; [congruence |].
    unfold create_player_url, str_getitem, slice, url_of.
    rewrite !substring_first_chars, zfill_two_digits by lia.
    reflexivity. }
  split; [exact Hurl |].
  split; [apply first_chars_short |].
  split; [apply first_chars_short |].
  intros Hlow. unfold lowercased_url. now rewrite Hlow.
Qed.

Lemma create_player_url_pattern_witness :
  create_player_url "Al" "wu" 1 = Ok "https://www.basketball-reference.com/players/w/wuAl01.html" /\
  first_chars 5 "wu" = "wu" /\
  first_chars 2 "Al" = "Al" /\
  create_player_url "Al" "wu" 1 = Ok (lowercased_url "Al" "wu" 1).
Proof.
  destruct (create_player_url_pattern "Al" "wu" 1) as (Hurl & Hlast & Hfirst & Hlow).
  - discriminate.
  - lia.
  - split; [exact Hurl |].
    split; [apply Hlast; simpl; lia |].
    split; [apply Hfirst; simpl; lia |].
    apply Hlow. reflexivity.
Defined.

(** ** The earlier copy *)

(** The earlier copy drops Lg, FG, 3PA, FT and DRB only: on the seven
    columns of the example it keeps 2P and the placeholder column. *)
Lemma legacy_remove_stats_seven_columns (rs : list (Z * list cell)) :
  exists df', Legacy.remove_stats (seven_columns rs) = Ok df' /\
              columns df' = ["Season"; "FGA"; "2P"; "2PA"; "Unnamed: 12"].
Proof.
  unfold Legacy.remove_stats. rewrite drop_each_retain.
  eexists. split; reflexivity.
Qed.

(** * Further properties of the code *)

(** ** Row Filter: errors, what remains, labels *)

Lemma remove_rows_no_season (df : DataFrame) :
  has_column df "Lg" = true ->
  has_column df "Season" = false ->
  remove_rows df = Raise (KeyError "Season").
Proof.
  intros HLg HSeason. unfold remove_rows, df_getitem.
  rewrite HLg. cbn [bind].
  rewrite index_where_column, drop_labels_where. cbn [bind].
  change (has_column (drop_where _ df) "Season") with (has_column df "Season").
  now rewrite HSeason.
Qed.

(** X1: the Row Filter raises KeyError 'Lg' on a frame without the column
    Lg, KeyError 'Season' on a frame with Lg but without Season, and
    returns a frame exactly when both columns are there. *)
Theorem remove_rows_key_errors (df : DataFrame) :
  (has_column df "Lg" = false -> remove_rows df = Raise (KeyError "Lg")) /\
  (has_column df "Lg" = true -> has_column df "Season" = false ->
   remove_rows df = Raise (KeyError "Season")) /\
  ((exists df', remove_rows df = Ok df') <->
   has_column df "Lg" = true /\ has_column df "Season" = true).
Proof.
  split; [| split].
  - intros HLg. unfold remove_rows, df_getitem. now rewrite HLg.
  - apply remove_rows_no_season.
  - split.
    + intros [df' Hrun].
      destruct (has_column df "Lg") eqn:HLg.
      * destruct (has_column df "Season") eqn:HSeason; [now split |].
        rewrite (remove_rows_no_season df HLg HSeason) in Hrun. discriminate.
      * unfold remove_rows, df_getitem in Hrun. rewrite HLg in Hrun. discriminate.
    + intros [HLg HSeason]. rewrite (remove_rows_steps df HLg HSeason). eauto.
Qed.

Lemma remove_rows_key_errors_witness :
  remove_rows plain = Raise (KeyError "Lg") /\
  remove_rows only_lg = Raise (KeyError "Season") /\
  exists df', remove_rows five_rows = Ok df'.
Proof.
  split; [| split].
  - apply (proj1 (remove_rows_key_errors plain)). reflexivity.
  - apply (proj1 (proj2 (remove_rows_key_errors only_lg))); reflexivity.
  - apply (proj2 (proj2 (remove_rows_key_errors five_rows))). split; reflexivity.
Defined.

Lemma filter_sublist {A} (f : A -> bool) (l : list A) : sublist (List.filter f l) l.
Proof.
  induction l as [|x l IH]; simpl; [constructor |].
  destruct (f x); now constructor.
Qed.

Lemma drop_where_sublist (p : list cell -> bool) (df : DataFrame) :
  sublist (rows (drop_where p df)) (rows df).
Proof. apply filter_sublist. Qed.

Lemma not_overseas (cols : list string) (row : list cell) :
  overseas cols row = false -> cell_at cols row "Lg" = CStr "NBA".
Proof.
  unfold overseas, ne_str. destruct (cell_at cols row "Lg"); try discriminate.
  intros H. apply negb_false_iff, String.eqb_eq in H. now subst.
Qed.

(** X2: on a frame with the columns Lg and Season the Row Filter returns a
    frame with the same columns, whose rows are rows of the input in their
    order with their cells untouched, and in which every row has "NBA" in
    Lg and a Season that is there and does not contain "season". *)
Theorem remove_rows_invariant (df : DataFrame) :
  has_column df "Lg" = true ->
  has_column df "Season" = true ->
  exists df',
    remove_rows df = Ok df' /\
    columns df' = columns df /\
    sublist (rows df') (rows df) /\
    Forall (fun r =>
              cell_at (columns df) (snd r) "Lg" = CStr "NBA" /\
              isna (cell_at (columns df) (snd r) "Season") = false /\
              contains "season" (str_cell (cell_at (columns df) (snd r) "Season")) = false)
           (rows df').
Proof.
  intros HLg HSeason. rewrite (remove_rows_steps df HLg HSeason).
  set (cols := columns df).
  set (df1 := drop_where (overseas cols) df).
  set (df2 := drop_where (team_summary cols) df1).
  set (df3 := drop_where (trailer cols) df2).
  exists df3. split; [reflexivity |]. split; [reflexivity |]. split.
  - transitivity (rows df2); [apply drop_where_sublist |].
    transitivity (rows df1); apply drop_where_sublist.
  - assert (Forall (fun r => overseas cols (snd r) = false) (rows df3)) as H1.
    { do 2 apply drop_where_keeps. apply drop_where_clears. }
    assert (Forall (fun r => team_summary cols (snd r) = false) (rows df3)) as H2.
    { apply drop_where_keeps. apply drop_where_clears. }
    assert (Forall (fun r => trailer cols (snd r) = false) (rows df3)) as H3.
    { apply drop_where_clears. }
    rewrite List.Forall_forall in *. intros r Hr.
    split; [apply not_overseas, H1, Hr |].
    split; [apply (H3 r Hr) | apply (H2 r Hr)].
Qed.

Lemma remove_rows_invariant_witness :
  exists df',
    remove_rows five_rows = Ok df' /\
    columns df' = columns five_rows /\
    sublist (rows df') (rows five_rows).
Proof.
  destruct (remove_rows_invariant five_rows) as (df' & Hrun & Hcols & Hsub & _);
    [reflexivity | reflexivity |].
  exists df'. split; [exact Hrun |]. split; [exact Hcols | exact Hsub].
Defined.

Lemma label_determines_row (l : list (Z * list cell)) (a b : Z * list cell) :
  List.NoDup (map fst l) -> In a l -> In b l -> fst a = fst b -> a = b.
Proof.
  induction l as [|x l IH]; simpl; intros Hnd Ha Hb Heq; [contradiction |].
  inversion Hnd as [|? ? Hx Hl]; subst.
  destruct Ha as [-> | Ha], Hb as [-> | Hb].
  - reflexivity.
  - exfalso. apply Hx. rewrite Heq. now apply in_map.
  - exfalso. apply Hx. rewrite <- Heq. now apply in_map.
  - now apply IH.
Qed.

Lemma NoDup_map_filter {A B} (g : A -> B) (f : A -> bool) (l : list A) :
  List.NoDup (map g l) -> List.NoDup (map g (List.filter f l)).
Proof.
  induction l as [|x l IH]; simpl; intros Hnd; [constructor |].
  inversion Hnd as [|? ? Hx Hl]; subst.
  destruct (f x); simpl; [| now apply IH].
  constructor; [| now apply IH].
  intros Hin. apply Hx. apply in_map_iff in Hin as (y & Hy & Hin).
  apply filter_In in Hin as [Hin _]. rewrite <- Hy. now apply in_map.
Qed.

Lemma drop_where_index_nodup (p : list cell -> bool) (df : DataFrame) :
  List.NoDup (index df) -> List.NoDup (index (drop_where p df)).
Proof. intros Hnd. unfold index. simpl. now apply NoDup_map_filter. Qed.

(** With distinct labels, dropping the labels a mask selects is dropping
    the rows it selects. *)
Lemma drop_where_unique (p : list cell -> bool) (df : DataFrame) :
  List.NoDup (index df) ->
  drop_where p df =
    {| columns := columns df;
       rows := List.filter (fun r => negb (p (snd r))) (rows df) |}.
Proof.
  intros Hnd. unfold drop_where. f_equal.
  apply filter_ext_in. intros r Hr. f_equal.
  destruct (p (snd r)) eqn:Hp.
  - apply mem_label_In. unfold labels_where. apply in_map, filter_In. now split.
  - destruct (mem_label (fst r) (labels_where p df)) eqn:Hmem; [| reflexivity].
    apply mem_label_In in Hmem. unfold labels_where in Hmem.
    apply in_map_iff in Hmem as (r' & Hlab & Hr').
    apply filter_In in Hr' as [Hr' Hp'].
    rewrite (label_determines_row (rows df) r' r Hnd Hr' Hr Hlab) in Hp'.
    congruence.
Qed.

(** X3: when the index labels of the frame are distinct, the Row Filter
    keeps exactly the rows that have "NBA" in Lg and a Season that is there
    and does not contain "season", in their order, and changes nothing
    else. *)
Theorem remove_rows_unique_labels (df : DataFrame) :
  has_column df "Lg" = true ->
  has_column df "Season" = true ->
  List.NoDup (index df) ->
  remove_rows df =
    Ok {| columns := columns df;
          rows := List.filter (fun r => kept (columns df) (snd r)) (rows df) |}.
Proof.
  intros HLg HSeason Hnd. rewrite (remove_rows_steps df HLg HSeason).
  set (cols := columns df).
  set (df1 := drop_where (overseas cols) df).
  set (df2 := drop_where (team_summary cols) df1).
  assert (List.NoDup (index df1)) as Hnd1 by now apply drop_where_index_nodup.
  assert (List.NoDup (index df2)) as Hnd2 by now apply drop_where_index_nodup.
  rewrite (drop_where_unique (trailer cols) df2 Hnd2). unfold df2.
  rewrite (drop_where_unique (team_summary cols) df1 Hnd1). unfold df1.
  rewrite (drop_where_unique (overseas cols) df Hnd).
  simpl. rewrite !filter_filter. do 2 f_equal.
  apply filter_ext. intros r. unfold kept. now rewrite andb_assoc.
Qed.

Lemma remove_rows_unique_labels_witness :
  remove_rows five_rows =
    Ok {| columns := columns five_rows;
          rows := List.filter (fun r => kept (columns five_rows) (snd r)) (rows five_rows) |}.
Proof.
  apply (remove_rows_unique_labels five_rows); [reflexivity | reflexivity |].
  repeat constructor; simpl; intuition lia.
Defined.

(** A drop either removes a label from the index or leaves the row. *)
Lemma drop_where_label_or_row (p : list cell -> bool) (df : DataFrame) (r : Z * list cell) :
  In r (rows df) ->
  ~ In (fst r) (index (drop_where p df)) \/ In r (rows (drop_where p df)).
Proof.
  intros Hr. destruct (mem_label (fst r) (labels_where p df)) eqn:Hmem.
  - left. intros Hin. unfold index in Hin.
    apply in_map_iff in Hin as (r' & Hlab & Hr'). simpl in Hr'.
    apply filter_In in Hr' as [_ Hkeep]. rewrite Hlab, Hmem in Hkeep. discriminate.
  - right. simpl. apply filter_In. split; [exact Hr | now rewrite Hmem].
Qed.

(** X4: the Row Filter drops by index label: the label of every row that
    one of the three masks selects is absent from the index of the result,
    so a row that shares its label with such a row goes with it. *)
Theorem remove_rows_drops_labels (df : DataFrame) (r : Z * list cell) :
  has_column df "Lg" = true ->
  has_column df "Season" = true ->
  In r (rows df) ->
  kept (columns df) (snd r) = false ->
  exists df', remove_rows df = Ok df' /\ ~ In (fst r) (index df').
Proof.
  intros HLg HSeason Hr Hkept. rewrite (remove_rows_steps df HLg HSeason).
  set (cols := columns df) in *.
  set (df1 := drop_where (overseas cols) df).
  set (df2 := drop_where (team_summary cols) df1).
  eexists. split; [reflexivity |].
  destruct (drop_where_label_or_row (overseas cols) df r Hr) as [Hgone | Hr1].
  { intros Hin. do 2 apply drop_where_index_sub in Hin. contradiction. }
  destruct (drop_where_label_or_row (team_summary cols) df1 r Hr1) as [Hgone | Hr2].
  { intros Hin. apply drop_where_index_sub in Hin. contradiction. }
  fold df1 in Hr2. fold df2 in Hr2.
  unfold kept in Hkept.
  destruct (overseas cols (snd r)) eqn:H1.
  { exfalso. apply (drop_where_label (overseas cols) df r Hr H1).
    unfold index. now apply in_map. }
  destruct (team_summary cols (snd r)) eqn:H2.
  { exfalso. apply (drop_where_label (team_summary cols) df1 r Hr1 H2).
    unfold index. now apply in_map. }
  destruct (trailer cols (snd r)) eqn:H3; [| discriminate].
  now apply (drop_where_label (trailer cols) df2 r Hr2 H3).
Qed.

Lemma remove_rows_drops_labels_witness :
  kept (columns shared_label) [CStr "2018-19"; CStr "NBA"] = true /\
  exists df', remove_rows shared_label = Ok df' /\ ~ In 0 (index df').
Proof.
  split; [reflexivity |].
  apply (remove_rows_drops_labels shared_label (0, [CStr "2018-19"; CStr "Spain"]));
    [reflexivity | reflexivity | right; now left | reflexivity].
Defined.

(** ** Column Filter: what remains, twice, alignment, order of the filters *)

Lemma remove_stats_columns (df : DataFrame) :
  exists df', remove_stats df = Ok df' /\
              columns df' = List.filter retained (columns df).
Proof.
  rewrite remove_stats_retain.
  destruct (existsb _ _) eqn:Hany; eexists; (split; [reflexivity |]).
  - reflexivity.
  - symmetry. apply filter_all, List.Forall_forall.
    now apply no_target_all_retained.
Qed.

(** X5: the Column Filter never raises, and the frame it returns has none
    of the columns 2P, 3P, DRB, FG, FT, Lg and no column whose label
    contains "Unnamed:". *)
Theorem remove_stats_clean (df : DataFrame) :
  exists df',
    remove_stats df = Ok df' /\
    (forall c, In c drop_cols -> has_column df' c = false) /\
    (forall c, In c (columns df') -> contains "Unnamed:" c = false).
Proof.
  destruct (remove_stats_columns df) as (df' & Hrun & Hcols).
  exists df'. split; [exact Hrun |].
  assert (forall c, In c (columns df') -> retained c = true) as Hret.
  { intros c Hc. rewrite Hcols in Hc. now apply filter_In in Hc as [_ Hc]. }
  split.
  - intros c Hc. destruct (has_column df' c) eqn:Hhas; [| reflexivity].
    apply has_column_In in Hhas. specialize (Hret c Hhas).
    unfold retained in Hret. apply andb_true_iff in Hret as [Hret _].
    apply negb_true_iff in Hret. apply mem_In in Hc. congruence.
  - intros c Hc. specialize (Hret c Hc).
    unfold retained in Hret. apply andb_true_iff in Hret as [_ Hret].
    now apply negb_true_iff in Hret.
Qed.

Lemma remove_stats_clean_witness :
  exists df',
    remove_stats (seven_columns []) = Ok df' /\
    has_column df' "Lg" = false /\
    contains "Unnamed:" "Season" = false.
Proof.
  destruct (remove_stats_clean (seven_columns [])) as (df' & Hrun & Hfixed & Hplace).
  exists df'. split; [exact Hrun |]. split.
  - apply Hfixed. unfold drop_cols. simpl. tauto.
  - reflexivity.
Defined.

(** X6: the Column Filter is idempotent: applied to the frame it returned,
    it returns that frame. *)
Theorem remove_stats_idempotent (df : DataFrame) :
  exists df', remove_stats df = Ok df' /\ remove_stats df' = Ok df'.
Proof.
  destruct (remove_stats_columns df) as (df' & Hrun & Hcols).
  exists df'. split; [exact Hrun |].
  rewrite remove_stats_retain.
  replace (existsb (has_column df')
             (drop_cols ++ List.filter (contains "Unnamed:") (columns df')))
    with false; [reflexivity |].
  symmetry. apply no_target_all_retained.
  intros c Hc. rewrite Hcols in Hc. now apply filter_In in Hc as [_ Hc].
Qed.

Lemma pick_length {A} (keep : string -> bool) (cols : list string) (row : list A) :
  length row = length cols ->
  length (pick keep cols row) = length (List.filter keep cols).
Proof.
  revert row. induction cols as [|c cols IH]; intros [|e row] Hlen;
    simpl in *; try reflexivity; try discriminate.
  injection Hlen as Hlen. destruct (keep c); simpl; now rewrite IH.
Qed.

Lemma retain_aligned (keep : string -> bool) (df : DataFrame) :
  aligned df -> aligned (retain keep df).
Proof.
  unfold aligned. rewrite !List.Forall_forall. intros Hal r Hr. simpl in *.
  apply in_map_iff in Hr as (r0 & <- & Hr0). simpl.
  apply pick_length. now apply Hal.
Qed.

Lemma remove_stats_keeps_aligned (df df' : DataFrame) :
  remove_stats df = Ok df' -> aligned df -> aligned df'.
Proof.
  rewrite remove_stats_retain.
  destruct (existsb (has_column df) _); intros [= <-] Hal;
    [now apply retain_aligned | exact Hal].
Qed.

(** X7: the Column Filter keeps the rows aligned to the header: when every
    row of the input has one cell per column, so has every row of the
    result. *)
Theorem remove_stats_aligned (df : DataFrame) :
  aligned df ->
  exists df', remove_stats df = Ok df' /\ aligned df'.
Proof.
  intros Hal. destruct (remove_stats_columns df) as (df' & Hrun & _).
  exists df'. split; [exact Hrun |].
  now apply (remove_stats_keeps_aligned df df').
Qed.

Lemma remove_stats_aligned_witness :
  exists df', remove_stats (seven_columns [ (0, [CStr "2020-21"; CStr "NBA"; CFloat "9.1";
                                                 CFloat "18.3"; CFloat "6.0"; CFloat "11.2";
                                                 CNaN]) ]) = Ok df' /\ aligned df'.
Proof.
  apply remove_stats_aligned. repeat constructor.
Defined.

(** X8: the two filters do not commute: the Column Filter removes the
    column Lg that the Row Filter reads, so the Row Filter applied to a
    frame the Column Filter returned raises KeyError 'Lg'. *)
Theorem remove_rows_after_remove_stats (df : DataFrame) :
  exists df', remove_stats df = Ok df' /\ remove_rows df' = Raise (KeyError "Lg").
Proof.
  destruct (remove_stats_columns df) as (df' & Hrun & Hcols).
  exists df'. split; [exact Hrun |].
  assert (has_column df' "Lg" = false) as HLg.
  { destruct (has_column df' "Lg") eqn:Hhas; [| reflexivity].
    apply has_column_In in Hhas. rewrite Hcols in Hhas.
    apply filter_In in Hhas as [_ Hret]. discriminate Hret. }
  unfold remove_rows, df_getitem. now rewrite HLg.
Qed.

(** ** URL Builder: empty names, collisions, the index *)

Lemma create_player_url_cases (first_name last_name : string) (n : Z) :
  create_player_url first_name last_name n =
  match last_name with
  | EmptyString => Raise IndexError
  | String c _ =>
      Ok (url_of (String c EmptyString) (first_chars 5 last_name)
                 (first_chars 2 first_name) (zfill (str n) 2))
  end.
Proof.
  destruct last_name as [|c rest]; [reflexivity |].
  unfold create_player_url, str_getitem, slice, url_of.
  rewrite !substring_first_chars. reflexivity.
Qed.

(** X9: the URL Builder raises IndexError exactly when the last name is
    empty, whatever the first name and the index are (an empty first name
    is accepted); with an empty last name the invocation ends with that
    IndexError before any request is made and with nothing printed. *)
Theorem create_player_url_empty_last (first_name : string) (n : Z) :
  (forall last_name,
     create_player_url first_name last_name n = Raise IndexError <->
     last_name = EmptyString) /\
  (forall last_name,
     last_name <> EmptyString ->
     exists url, create_player_url first_name last_name n = Ok url) /\
  (forall env stats playoffs w,
     main env first_name EmptyString stats playoffs n w = (Raise IndexError, w)).
Proof.
  split; [| split].
  - intros last_name. rewrite create_player_url_cases.
    destruct last_name; split; intros H; try reflexivity; discriminate.
  - intros last_name Hlast. rewrite create_player_url_cases.
    destruct last_name; [congruence | eauto].
  - reflexivity.
Qed.

Lemma create_player_url_empty_last_witness :
  exists url, create_player_url "" "wu" (-3) = Ok url.
Proof.
  apply (proj1 (proj2 (create_player_url_empty_last "" (-3))) "wu").
  discriminate.
Defined.

(** X10: the URL depends on the names only through the first 5 characters
    of the last name and the first 2 of the first name: two players whose
    names agree there get the same URL for the same index. *)
Theorem create_player_url_collision (first1 first2 last1 last2 : string) (n : Z) :
  first_chars 5 last1 = first_chars 5 last2 ->
  first_chars 2 first1 = first_chars 2 first2 ->
  create_player_url first1 last1 n = create_player_url first2 last2 n.
Proof.
  intros Hlast Hfirst. rewrite !create_player_url_cases.
  destruct last1 as [|c1 r1], last2 as [|c2 r2]; try reflexivity; try discriminate.
  rewrite Hlast, Hfirst.
  simpl in Hlast. injection Hlast as -> _. reflexivity.
Qed.

Lemma create_player_url_collision_witness :
  create_player_url "lebron" "james" 1 = create_player_url "leon" "jameson" 1.
Proof.
  apply create_player_url_collision; reflexivity.
Defined.

Lemma string_of_uint_length (d : Decimal.uint) :
  (1 <= String.length (NilZero.string_of_uint d))%nat.
Proof. destruct d; simpl; lia. Qed.

(** X11: the index is neither checked nor cut: from 10 on it is written
    with all its digits, and a negative index is written with its sign. *)
Theorem create_player_url_index (first_name last_name : string) (n : Z) :
  last_name <> EmptyString ->
  n < 0 \/ 10 <= n ->
  create_player_url first_name last_name n =
    Ok (url_of (first_chars 1 last_name) (first_chars 5 last_name)
               (first_chars 2 first_name) (str n)).
Proof.
  intros Hlast Hn. rewrite create_player_url_cases.
  destruct last_name as [|c rest]; [congruence |].
  rewrite zfill_long; [reflexivity |].
  destruct Hn as [Hneg | Hbig]; [| now apply str_length_from_10].
  destruct n as [|p|p]; try lia.
  unfold str. simpl.
  pose proof (string_of_uint_length (Pos.to_uint p)). lia.
Qed.

Lemma create_player_url_index_witness :
  create_player_url "lebron" "james" 123
    = Ok "https://www.basketball-reference.com/players/j/jamesle123.html" /\
  create_player_url "lebron" "james" (-1)
    = Ok "https://www.basketball-reference.com/players/j/jamesle-1.html".
Proof.
  split.
  - apply (create_player_url_index "lebron" "james" 123); [discriminate | lia].
  - apply (create_player_url_index "lebron" "james" (-1)); [discriminate | lia].
Defined.

(** ** Table Selector: unknown keys, distinct positions *)

Lemma table_map_unknown (stats : string) :
  stats <> "avg" -> stats <> "tot" -> stats <> "adv" -> table_map !! stats = None.
Proof.
  intros Havg Htot Hadv. unfold table_map.
  rewrite !lookup_insert_ne by congruence.
  now apply lookup_singleton_ne.
Qed.

(** X12: for a key other than 'avg', 'tot' and 'adv' the Table Selector
    raises KeyError with that key, whatever the tables and the season type
    are. *)
Theorem select_table_unknown (tables : list DataFrame) (stats : string) (playoffs : bool) :
  stats <> "avg" -> stats <> "tot" -> stats <> "adv" ->
  table_idx stats playoffs = Raise (KeyError stats) /\
  select_table tables stats playoffs = Raise (KeyError stats).
Proof.
  intros Havg Htot Hadv.
  assert (table_idx stats playoffs = Raise (KeyError stats)) as Hidx.
  { unfold table_idx, dict_getitem.
    now rewrite (table_map_unknown stats Havg Htot Hadv). }
  split; [exact Hidx |].
  unfold select_table. now rewrite Hidx.
Qed.

Lemma select_table_unknown_witness :
  select_table six_tables "total" false = Raise (KeyError "total").
Proof.
  apply (select_table_unknown six_tables "total" false); discriminate.
Defined.

(** X13: the six requests (three categories, two season types) choose six
    different positions, all below 6; on a page with at least six tables
    every one of them returns a table. *)
Theorem select_table_six (tables : list DataFrame) :
  (forall c1 p1 c2 p2,
     table_idx (flag c1) p1 = table_idx (flag c2) p2 -> c1 = c2 /\ p1 = p2) /\
  (forall c p i, table_idx (flag c) p = Ok i -> 0 <= i < 6) /\
  ((6 <= length tables)%nat ->
   forall c p, exists df, select_table tables (flag c) p = Ok df).
Proof.
  split; [| split].
  - intros c1 p1 c2 p2. rewrite !table_idx_flag.
    destruct c1, p1, c2, p2; simpl; intros H; try discriminate H; split; reflexivity.
  - intros c p i. rewrite table_idx_flag. intros [= <-].
    destruct c, p; simpl; lia.
  - intros Hlen c p. unfold select_table. rewrite table_idx_flag. cbn [bind].
    destruct (lookup_lt_is_Some_2 tables (Z.to_nat (base c + (if p then 1 else 0))))
      as [df Hdf].
    { destruct c, p; simpl; lia. }
    exists df. apply getitem_lookup; [apply base_nonneg | exact Hdf].
Qed.

Lemma select_table_six_witness :
  (6 <= length six_tables)%nat /\
  exists df, select_table six_tables (flag totals) true = Ok df.
Proof.
  assert (6 <= length six_tables)%nat as Hlen by (simpl; lia).
  split; [exact Hlen |].
  apply (proj2 (proj2 (select_table_six six_tables)) Hlen totals true).
Defined.

(** ** The pipeline: [get_player_stats] and [main] *)

(** Once the page has come with status 200, the rest of [get_player_stats]
    is pure. *)
Lemma get_player_stats_after_fetch (env : Env) (first_name last_name stats url : string)
    (playoffs : bool) (n : Z) (w : world) :
  create_player_url first_name last_name n = Ok url ->
  status_code (requests_get env url) = 200 ->
  get_player_stats env first_name last_name stats playoffs n w =
    ((let! tables := read_html env (content (requests_get env url)) in
      let! df := select_table tables stats playoffs in
      let! df := remove_rows df in
      remove_stats df),
     after_request url w).
Proof.
  intros Hurl H200.
  unfold get_player_stats, mbind at 1 2, lift at 1.
  rewrite Hurl, (get_tables_200 env url w H200).
  fold (after_request url w).
  destruct (read_html env _) as [tables|e]; [| reflexivity].
  unfold mbind, lift, ret. cbn [bind].
  destruct (select_table tables stats playoffs) as [df0|e]; [| reflexivity].
  cbn [bind]. destruct (remove_rows df0) as [df1|e]; [| reflexivity].
  cbn [bind]. now destruct (remove_stats df1).
Qed.

Lemma main_after_stats (env : Env) (first_name last_name stats : string)
    (playoffs : bool) (n : Z) (w w' : world) (r : result DataFrame) :
  get_player_stats env first_name last_name stats playoffs n w = (r, w') ->
  main env first_name last_name stats playoffs n w =
    match r with
    | Ok df => pprint_df df first_name last_name stats playoffs w'
    | Raise e => (Raise e, w')
    end.
Proof. intros Hrun. unfold main, mbind at 1. now rewrite Hrun. Qed.

Lemma remove_stats_with_lg (df : DataFrame) :
  has_column df "Lg" = true -> remove_stats df = Ok (retain retained df).
Proof.
  intros HLg. rewrite remove_stats_retain.
  replace (existsb (has_column df)
             (drop_cols ++ List.filter (contains "Unnamed:") (columns df)))
    with true; [reflexivity |].
  symmetry. apply existsb_exists. exists "Lg". split; [| exact HLg].
  apply in_or_app. left. simpl. tauto.
Qed.

(** X14: when the page comes with status 200 and the chosen table has the
    columns Lg and Season and distinct index labels, [get_player_stats]
    returns that table with only the rows that have "NBA" in Lg and a
    Season that is there and does not contain "season", and only the
    columns the Column Filter retains; it has made one request and printed
    nothing. *)
Theorem get_player_stats_cleaned (env : Env) (first_name last_name stats url : string)
    (playoffs : bool) (n : Z) (tables : list DataFrame) (df : DataFrame) (w : world) :
  create_player_url first_name last_name n = Ok url ->
  status_code (requests_get env url) = 200 ->
  read_html env (content (requests_get env url)) = Ok tables ->
  select_table tables stats playoffs = Ok df ->
  has_column df "Lg" = true ->
  has_column df "Season" = true ->
  List.NoDup (index df) ->
  get_player_stats env first_name last_name stats playoffs n w =
    (Ok (retain retained
           {| columns := columns df;
              rows := List.filter (fun r => kept (columns df) (snd r)) (rows df) |}),
     after_request url w).
Proof.
  intros Hurl H200 Hread Hsel HLg HSeason Hnd.
  rewrite (get_player_stats_after_fetch env _ _ _ url _ _ _ Hurl H200).
  rewrite Hread. cbn [bind]. rewrite Hsel. cbn [bind].
  rewrite (remove_rows_steps df HLg HSeason).
  set (cols := columns df).
  set (df1 := drop_where (overseas cols) df).
  set (df2 := drop_where (team_summary cols) df1).
  assert (List.NoDup (index df1)) as Hnd1 by now apply drop_where_index_nodup.
  assert (List.NoDup (index df2)) as Hnd2 by now apply drop_where_index_nodup.
  cbn [bind]. rewrite remove_stats_with_lg by exact HLg.
  rewrite (drop_where_unique (trailer cols) df2 Hnd2). unfold df2.
  rewrite (drop_where_unique (team_summary cols) df1 Hnd1). unfold df1.
  rewrite (drop_where_unique (overseas cols) df Hnd).
  simpl. rewrite !filter_filter. do 4 f_equal.
  apply filter_ext. intros r. unfold kept. now rewrite andb_assoc.
Qed.

Lemma get_player_stats_cleaned_witness :
  get_player_stats (serving 200 [five_rows]) "lebron" "james" "avg" false 1 start =
    (Ok {| columns := ["Season"];
           rows := [ (0, [CStr "2020-21"]); (2, [CStr "2-team totals"]);
                     (4, [CStr "Career"]) ] |},
     {| requested := ["https://www.basketball-reference.com/players/j/jamesle01.html"];
        stdout := []; console := [] |}).
Proof.
  apply (get_player_stats_cleaned (serving 200 [five_rows]) "lebron" "james" "avg"
           "https://www.basketball-reference.com/players/j/jamesle01.html"
           false 1 [five_rows] five_rows start);
    try reflexivity.
  repeat constructor; simpl; intuition lia.
Defined.

(** X15: the key of the stat category is looked up only after the page has
    been fetched: with a key other than 'avg', 'tot' and 'adv',
    [get_player_stats] raises KeyError with that key after its one
    request. *)
Theorem get_player_stats_unknown_stats (env : Env) (first_name last_name stats url : string)
    (playoffs : bool) (n : Z) (tables : list DataFrame) (w : world) :
  create_player_url first_name last_name n = Ok url ->
  status_code (requests_get env url) = 200 ->
  read_html env (content (requests_get env url)) = Ok tables ->
  stats <> "avg" -> stats <> "tot" -> stats <> "adv" ->
  get_player_stats env first_name last_name stats playoffs n w =
    (Raise (KeyError stats), after_request url w).
Proof.
  intros Hurl H200 Hread Havg Htot Hadv.
  rewrite (get_player_stats_after_fetch env _ _ _ url _ _ _ Hurl H200).
  rewrite Hread. cbn [bind].
  unfold select_table, table_idx, dict_getitem.
  now rewrite (table_map_unknown stats Havg Htot Hadv).
Qed.

Lemma get_player_stats_unknown_stats_witness :
  get_player_stats (serving 200 six_tables) "lebron" "james" "total" false 1 start =
    (Raise (KeyError "total"),
     {| requested := ["https://www.basketball-reference.com/players/j/jamesle01.html"];
        stdout := []; console := [] |}).
Proof.
  apply (get_player_stats_unknown_stats (serving 200 six_tables) "lebron" "james" "total"
           "https://www.basketball-reference.com/players/j/jamesle01.html"
           false 1 six_tables start);
    try reflexivity; discriminate.
Defined.

(** X16: nothing catches what goes wrong after the request: an exception
    of the page reader, and the KeyError 'Lg' of the Row Filter on a chosen
    table without the column Lg, end the invocation, with nothing printed
    and nothing rendered. *)
Theorem main_propagates (env : Env) (first_name last_name stats url : string)
    (playoffs : bool) (n : Z) (w : world) :
  create_player_url first_name last_name n = Ok url ->
  status_code (requests_get env url) = 200 ->
  (forall e,
     read_html env (content (requests_get env url)) = Raise e ->
     main env first_name last_name stats playoffs n w = (Raise e, after_request url w)) /\
  (forall tables df,
     read_html env (content (requests_get env url)) = Ok tables ->
     select_table tables stats playoffs = Ok df ->
     has_column df "Lg" = false ->
     main env first_name last_name stats playoffs n w =
       (Raise (KeyError "Lg"), after_request url w)).
Proof.
  intros Hurl H200.
  pose proof (get_player_stats_after_fetch env first_name last_name stats url
                playoffs n w Hurl H200) as Hrun.
  split.
  - intros e Hread. rewrite Hread in Hrun.
    now rewrite (main_after_stats _ _ _ _ _ _ _ _ _ Hrun).
  - intros tables df Hread Hsel HLg. rewrite Hread in Hrun. cbn [bind] in Hrun.
    rewrite Hsel in Hrun. cbn [bind] in Hrun.
    unfold remove_rows, df_getitem in Hrun. rewrite HLg in Hrun. cbn [bind] in Hrun.
    now rewrite (main_after_stats _ _ _ _ _ _ _ _ _ Hrun).
Qed.

Lemma main_propagates_witness :
  main no_tables "lebron" "james" "avg" false 1 start =
    (Raise (ValueError "No tables found"),
     {| requested := ["https://www.basketball-reference.com/players/j/jamesle01.html"];
        stdout := []; console := [] |}) /\
  main (serving 200 [plain]) "lebron" "james" "avg" false 1 start =
    (Raise (KeyError "Lg"),
     {| requested := ["https://www.basketball-reference.com/players/j/jamesle01.html"];
        stdout := []; console := [] |}).
Proof.
  split.
  - apply (proj1 (main_propagates no_tables "lebron" "james" "avg"
                    "https://www.basketball-reference.com/players/j/jamesle01.html"
                    false 1 start eq_refl eq_refl)).
    reflexivity.
  - apply (proj2 (main_propagates (serving 200 [plain]) "lebron" "james" "avg"
                    "https://www.basketball-reference.com/players/j/jamesle01.html"
                    false 1 start eq_refl eq_refl) [plain] plain);
      reflexivity.
Defined.

(** ** Renderer: the table it prints, rows without cells *)





Lemma add_rows_empty_row (rows : list (list string)) (i : Z) (t : Table) :
  Exists (fun row => row = []) rows -> add_rows i rows t = Raise IndexError.
Proof.
  intros Hex. revert i t.
  induction rows as [|row rows IH]; intros i t; [inversion Hex |].
  cbn [add_rows]. destruct row as [|first rest]; [reflexivity |].
  rewrite row_style_cons. cbn [bind]. apply IH.
  inversion Hex as [? ? Hrow | ? ? Htail]; subst; [discriminate | exact Htail].
Qed.

(** X18: on a frame with a row that has no cell (rows under an empty
    header) the Renderer raises IndexError and prints nothing, not even the
    rows before that one. *)
Theorem pprint_df_empty_row (df : DataFrame) (first_name last_name stats : string)
    (playoffs : bool) (w : world) :
  Exists (fun r => snd r = []) (rows df) ->
  pprint_df df first_name last_name stats playoffs w = (Raise IndexError, w).
Proof.
  intros Hex. unfold pprint_df, mbind, lift, build_table.
  rewrite add_rows_empty_row; [reflexivity |].
  unfold values. rewrite map_map.
  apply List.Exists_exists in Hex as (r & Hr & Hempty).
  apply List.Exists_exists. exists (map str_cell (snd r)).
  split; [| now rewrite Hempty].
  apply in_map_iff. now exists r.
Qed.

Lemma pprint_df_empty_row_witness :
  pprint_df no_columns "lebron" "james" "avg" false start = (Raise IndexError, start).
Proof.
  apply pprint_df_empty_row. left. reflexivity.
Defined.




(** ** The earlier copy: its Column Filter and its Renderer *)

(** X20: the Column Filter of the earlier copy never raises and removes
    exactly the columns Lg, FG, 3PA, FT and DRB, keeping the others in
    order; a placeholder column and the columns 2P and 3P stay. *)
Theorem legacy_remove_stats_columns (df : DataFrame) :
  exists df',
    Legacy.remove_stats df = Ok df' /\
    index df' = index df /\
    columns df' = List.filter (fun c => negb (mem c Legacy.drop_cols)) (columns df) /\
    (forall c, In c (columns df) ->
               contains "Unnamed:" c = true \/ c = "2P" \/ c = "3P" ->
               In c (columns df')).
Proof.
  unfold Legacy.remove_stats. rewrite drop_each_retain.
  assert (forall c, contains "Unnamed:" c = true \/ c = "2P" \/ c = "3P" ->
                    mem c Legacy.drop_cols = false) as Hstay.
  { intros c [Hun | [-> | ->]]; [| reflexivity | reflexivity].
    destruct (mem c Legacy.drop_cols) eqn:Hmem; [| reflexivity].
    apply mem_In in Hmem. simpl in Hmem.
    destruct Hmem as [<- | [<- | [<- | [<- | [<- | []]]]]]; discriminate Hun. }
  destruct (existsb (has_column df) Legacy.drop_cols) eqn:Hany;
    eexists; (split; [reflexivity |]).
  - split; [| split].
    + unfold index. simpl. now rewrite map_map.
    + reflexivity.
    + intros c Hc Hkind. unfold retain. cbn [columns].
      apply filter_In. split; [exact Hc |].
      now rewrite (Hstay c Hkind).
  - assert (List.filter (fun c => negb (mem c Legacy.drop_cols)) (columns df) = columns df)
      as Hcols.
    { apply filter_all, List.Forall_forall. intros c Hc.
      apply negb_true_iff. destruct (mem c Legacy.drop_cols) eqn:Hmem; [| reflexivity].
      apply mem_In in Hmem.
      assert (existsb (has_column df) Legacy.drop_cols = true) as Hyes; [| congruence].
      apply existsb_exists. exists c. split; [exact Hmem | now apply has_column_In]. }
    split; [reflexivity |]. split; [now rewrite Hcols |]. intros c Hc _. exact Hc.
Qed.

Lemma legacy_remove_stats_columns_witness :
  exists df',
    Legacy.remove_stats (seven_columns []) = Ok df' /\
    In "Unnamed: 12" (columns df') /\ In "2P" (columns df').
Proof.
  destruct (legacy_remove_stats_columns (seven_columns [])) as (df' & Hrun & _ & _ & Hstay).
  exists df'. split; [exact Hrun |]. split.
  - apply Hstay; [simpl; tauto | left; reflexivity].
  - apply Hstay; [simpl; tauto | right; left; reflexivity].
Defined.

